(** * Subscription reconciliation and webhook handling

    A shallow embedding of the subscription controller
    ([controllers/subscriptionController.js]), the invoice controller
    ([controllers/invoiceController.js]) and the [Invoice] model of the
    Elevate music backend, together with the properties of the webhook
    handler, the status reconciler, the countdown view and the
    force-activate recovery operation.

    Conventions of the embedding:
    - a JavaScript [Date] is the number of milliseconds since the epoch, in [Z];
      provider timestamps are seconds since the epoch, in [Z];
    - a property that may be [undefined]/[null] is an [option];
    - [Date.now()], [new Date()] and [Math.random()] are read from an
      environment record, one reading per request;
    - the billing provider's SDK ([stripe.webhooks.constructEvent],
      [stripe.subscriptions.retrieve]) is a field of the same environment; a
      call that throws returns [None];
    - the [users] and [invoices] tables are lists of rows; [user.subscription]
      is the parsed JSON object of the column. *)

From Stdlib Require Import ZArith List String Bool Lia DecimalString.
Import ListNotations.

Open Scope string_scope.
Open Scope Z_scope.

(** ** JavaScript truthiness and the [||] operator *)

Module Js.

Definition truthy_str (s : option string) : bool :=
  match s with
  | Some t => negb (String.eqb t EmptyString)
  | None => false
  end.

Definition truthy_num (n : option Z) : bool :=
  match n with
  | Some z => negb (z =? 0)
  | None => false
  end.

(** [a || b] on possibly missing strings. *)
Definition or_str (a b : option string) : option string :=
  if truthy_str a then a else b.

(** [a || b] on possibly missing numbers. *)
Definition or_num (a b : option Z) : option Z :=
  if truthy_num a then a else b.

(** [a || 'literal'] *)
Definition or_lit (a : option string) (d : string) : string :=
  match a with
  | Some t => if String.eqb t EmptyString then d else t
  | None => d
  end.

(** [x === 'literal'] for a possibly missing string. *)
Definition is_str (a : option string) (l : string) : bool :=
  match a with
  | Some t => String.eqb t l
  | None => false
  end.

(** [Math.ceil(a / b)] for integers [a] and a positive integer [b]. *)
Definition ceil_div (a b : Z) : Z := - ((- a) / b).

(** Decimal rendering of an integer inside a template string. *)
Definition show (z : Z) : string := NilZero.string_of_int (Z.to_int z).

End Js.

(** ** Data model *)

(** The JSON object stored in [user.subscription]. *)
Module Subscription.
Record t := mk {
  id : option string;
  status : option string;
  currentPeriodEnd : option Z;
  paymentDate : option Z;
  interval : option string;
  cancelAtPeriodEnd : option bool;
}.

(** The object [{}]. *)
Definition empty : t := mk None None None None None None.

(** [{ ...user.subscription }]: spreading [null] or [undefined] gives [{}]. *)
Definition spread (o : option t) : t :=
  match o with
  | Some s => s
  | None => empty
  end.
End Subscription.

(** A row of the [users] table, restricted to the columns the controllers read. *)
Module User.
Record t := mk {
  id : Z;
  name : option string;
  email : option string;
  stripeCustomerId : option string;
  subscription : option Subscription.t;
}.

Definition set_subscription (u : t) (s : Subscription.t) : t :=
  mk (id u) (name u) (email u) (stripeCustomerId u) (Some s).
End User.

(** A row of the [invoices] table ([models/Invoice.js]).  [amount] is kept in
    hundredths of the currency unit, which is what [DECIMAL(10, 2)] stores. *)
Module Invoice.
Record t := mk {
  invoiceId : string;
  userId : Z;
  subscriptionId : string;
  stripeInvoiceId : option string;
  amount : Z;
  currency : string;
  status : string;
  customerName : option string;
  customerEmail : string;
  emailSent : bool;
  emailSentAt : option Z;
}.
End Invoice.

(** The provider's subscription object, restricted to the fields read. *)
Module Stripe.
Record subscription := mkSubscription {
  id : string;
  status : string;
  customer : string;
  current_period_start : option Z;
  current_period_end : option Z;
  cancel_at_period_end : bool;
  plan_interval : option string;   (* items.data[0]?.plan?.interval *)
  price_id : option string;        (* items.data[0]?.price?.id *)
}.

(** A payment intent or a charge: the handlers read the same fields of both. *)
Record payment := mkPayment {
  pay_id : string;
  metadata_subscription_id : option string;   (* metadata?.subscription_id *)
  pay_amount : Z;
  pay_currency : option string;
  pay_invoice : option string;
}.

Record invoice := mkInvoice {
  inv_id : string;
  inv_customer : string;
  period_end : Z;
  inv_subscription : option string;
  amount_paid : Z;
  inv_currency : option string;
}.

(** The verified event envelope [{type, data: {object}}]. *)
Inductive event :=
| payment_intent_succeeded (pi : payment)
| charge_succeeded (ch : payment)
| payment_intent_payment_failed (pi : payment)
| customer_subscription_created (s : subscription)
| customer_subscription_updated (s : subscription)
| customer_subscription_deleted (s : subscription)
| invoice_payment_succeeded (i : invoice)
| invoice_payment_failed (i : invoice)
| other_event (type : string).

Definition type_of (e : event) : string :=
  match e with
  | payment_intent_succeeded _ => "payment_intent.succeeded"
  | charge_succeeded _ => "charge.succeeded"
  | payment_intent_payment_failed _ => "payment_intent.payment_failed"
  | customer_subscription_created _ => "customer.subscription.created"
  | customer_subscription_updated _ => "customer.subscription.updated"
  | customer_subscription_deleted _ => "customer.subscription.deleted"
  | invoice_payment_succeeded _ => "invoice.payment_succeeded"
  | invoice_payment_failed _ => "invoice.payment_failed"
  | other_event t => t
  end.
End Stripe.

(** The two tables. *)
Record Store := mkStore {
  users : list User.t;
  invoices : list Invoice.t;
}.

(** What a request reads from outside the process. *)
Record Env := mkEnv {
  now : Z;                                   (* Date.now(), new Date() *)
  random : string;                           (* Math.random().toString(36)... *)
  constructEvent :
    string -> option string -> option string -> option Stripe.event;
  retrieve : string -> option Stripe.subscription;
  emailResult : bool;                        (* sendInvoiceEmail(...).success *)
}.

(** Process configuration read at start-up. *)
Record Config := mkConfig {
  stripe : bool;                             (* STRIPE_SECRET_KEY present *)
  STRIPE_WEBHOOK_SECRET : option string;
}.

Record Request := mkRequest {
  req_body : string;
  stripe_signature : option string;          (* req.headers['stripe-signature'] *)
  req_user : option Z;                       (* req.user && req.user.id *)
}.

(** ** The [users] table *)

Definition findOne (customer : string) (us : list User.t) : option User.t :=
  find (fun u => Js.is_str (User.stripeCustomerId u) customer) us.

Definition findByPk (uid : Z) (us : list User.t) : option User.t :=
  find (fun u => User.id u =? uid) us.

(** [user.save()]: the row with the user's primary key is rewritten. *)
Definition save (u : User.t) (st : Store) : Store :=
  mkStore
    (map (fun r => if User.id r =? User.id u then u else r) (users st))
    (invoices st).

Definition day_ms : Z := 1000 * 60 * 60 * 24.

(** [const validityDays = interval === 'year' ? 365 : 30] *)
Definition validityDays (interval : string) : Z :=
  if String.eqb interval "year" then 365 else 30.

(** The period end a handler writes: the provider's value when it is truthy,
    otherwise [Date.now() + validityDays] days. *)
Definition periodEndOr (e : Env) (cpe : option Z) (interval : string) : Z :=
  if Js.truthy_num cpe
  then match cpe with Some s => s * 1000 | None => 0 end
  else now e + validityDays interval * 24 * 60 * 60 * 1000.

(** ** Invoice controller ([generateInvoice], [sendInvoice],
       [handleSuccessfulPayment]) *)

Module InvoiceController.

(** The [subscriptionData] argument. *)
Record subscriptionData := mkData {
  sd_id : option string;
  sd_subscriptionId : option string;
  sd_amount : option Z;
  sd_price : option Z;
  sd_currency : option string;
  sd_stripeInvoiceId : option string;
}.

(** [`INV-${Date.now()}-${Math.random().toString(36).substr(2, 9).toUpperCase()}`] *)
Definition newInvoiceId (e : Env) : string :=
  "INV-" ++ Js.show (now e) ++ "-" ++ random e.

(** [Invoice.create]: the model's [allowNull: false] columns must be present
    and [invoiceId] is [unique]; a violation throws. *)
Definition create (invoiceId : string) (userId : Z)
    (subscriptionId : option string) (stripeInvoiceId : option string)
    (amount : option Z) (currency : string) (customerName : option string)
    (customerEmail : option string) (st : Store)
  : option (Invoice.t * Store) :=
  match subscriptionId, amount, customerEmail with
  | Some sid, Some amt, Some mail =>
      if existsb (fun i => String.eqb (Invoice.invoiceId i) invoiceId)
                 (invoices st)
      then None
      else
        let inv := Invoice.mk invoiceId userId sid stripeInvoiceId amt
                     currency "paid" customerName mail false None in
        Some (inv, mkStore (users st) (invoices st ++ [inv]))
  | _, _, _ => None
  end.

Definition generateInvoice (e : Env) (d : subscriptionData) (user : User.t)
    (st : Store) : option (Invoice.t * Store) :=
  create (newInvoiceId e) (User.id user)
    (Js.or_str (sd_id d) (sd_subscriptionId d))
    (sd_stripeInvoiceId d)
    (Js.or_num (sd_amount d) (sd_price d))
    (Js.or_lit (sd_currency d) "usd")
    (User.name user) (User.email user) st.

(** [invoice.save()] after the e-mail went out; the row is found by its
    unique [invoiceId], which stands for the auto-increment primary key. *)
Definition markSent (e : Env) (inv : Invoice.t) (st : Store) : Store :=
  mkStore (users st)
    (map (fun i =>
            if String.eqb (Invoice.invoiceId i) (Invoice.invoiceId inv)
            then Invoice.mk (Invoice.invoiceId inv) (Invoice.userId inv)
                   (Invoice.subscriptionId inv) (Invoice.stripeInvoiceId inv)
                   (Invoice.amount inv) (Invoice.currency inv)
                   (Invoice.status inv) (Invoice.customerName inv)
                   (Invoice.customerEmail inv) true (Some (now e))
            else i)
         (invoices st)).

Definition sendInvoice (e : Env) (inv : Invoice.t) (st : Store) : Store :=
  if emailResult e then markSent e inv st else st.

(** The [catch] swallows a failed [generateInvoice]: nothing is thrown and
    nothing is returned. *)
Definition handleSuccessfulPayment (e : Env) (d : subscriptionData)
    (user : User.t) (st : Store) : Store * option Invoice.t :=
  match generateInvoice e d user st with
  | Some (inv, st') => (sendInvoice e inv st', Some inv)
  | None => (st, None)
  end.

(** The row [generateInvoice] inserts and [sendInvoice] may stamp. *)
Definition issued (e : Env) (d : subscriptionData) (user : User.t)
    (sid : string) (amt : Z) (mail : string) : Invoice.t :=
  Invoice.mk (newInvoiceId e) (User.id user) sid (sd_stripeInvoiceId d) amt
    (Js.or_lit (sd_currency d) "usd") "paid" (User.name user) mail
    (emailResult e) (if emailResult e then Some (now e) else None).

(** [newInvoiceId e] is not yet the [invoiceId] of a row. *)
Definition fresh (e : Env) (l : list Invoice.t) : Prop :=
  existsb (fun i => String.eqb (Invoice.invoiceId i) (newInvoiceId e)) l = false.

End InvoiceController.

(** ** Subscription controller *)

Module SubscriptionController.

Import InvoiceController.

(** The subscription summary of the status endpoint. *)
Record StatusView := mkStatusView {
  v_id : string;
  v_status : string;
  v_currentPeriodStart : option Z;
  v_currentPeriodEnd : option Z;
  v_cancelAtPeriodEnd : bool;
  v_plan : option string;
  v_interval : string;
  v_isActive : bool;
  v_paymentDate : option Z;
  v_willCancelAtPeriodEnd : bool;
}.

(** The [paymentInfo] object of the details endpoint; [None] in
    [remainingDays] is [NaN]. *)
Record PaymentInfo := mkPaymentInfo {
  p_paymentDate : option Z;
  p_expiryDate : option Z;
  p_remainingDays : option Z;
  p_validityDays : Z;
  p_validityStatus : string;
  p_interval : string;
}.

(** The subscription summary of the force-activate endpoint. *)
Record ActivatedView := mkActivatedView {
  a_id : string;
  a_status : string;
  a_interval : string;
  a_cancelAtPeriodEnd : bool;
  a_currentPeriodEnd : option Z;
  a_isActive : bool;
}.

(** JSON bodies written by the handlers. *)
Inductive Body :=
| Message (message : string)
| Failure (message : string)                 (* { message, error: error.message } *)
| WebhookError (error message : string)
| Received                                    (* { received: true } *)
| StatusBody (subscription : option StatusView)
| DetailsBody (subscription : StatusView) (paymentInfo : PaymentInfo)
| ForceActivated (message stripeStatus databaseStatus : string)
                 (subscription : ActivatedView).

Record Response := mkResponse {
  statusCode : Z;
  body : Body;
}.

(** [res.json(b)] answers 200; [res.status(c).json(b)] answers [c]. *)
Definition json (b : Body) : Response := mkResponse 200 b.

(** What the client of an [async] handler sees: a response, or nothing when
    the handler's promise rejects before anything was written. *)
Inductive Outcome :=
| Responded (r : Response)
| Rejected.

(** [user.subscription = { ...user.subscription, status, currentPeriodEnd,
    paymentDate: new Date(), interval }] followed by [user.save()]. *)
Definition writePaid (e : Env) (user : User.t) (status : string)
    (currentPeriodEnd : Z) (interval : string) : User.t :=
  let s := Subscription.spread (User.subscription user) in
  User.set_subscription user
    (Subscription.mk (Subscription.id s) (Some status) (Some currentPeriodEnd)
       (Some (now e)) (Some interval) (Subscription.cancelAtPeriodEnd s)).

(** The [handleSuccessfulPayment({...}, user)] call of the payment-intent and
    charge cases; its promise is not awaited and its failure is only logged. *)
Definition invoiceForPayment (e : Env) (subscriptionId : string)
    (p : Stripe.payment) (user : User.t) (st : Store) : Store :=
  fst (handleSuccessfulPayment e
         (mkData (Some subscriptionId) (Some subscriptionId)
            (Some (Stripe.pay_amount p)) None (Stripe.pay_currency p)
            (Js.or_str (Stripe.pay_invoice p) (Some (Stripe.pay_id p))))
         user st).

Definition isActiveStatus (s : string) : bool :=
  String.eqb s "active" || String.eqb s "trialing".

(** [case 'payment_intent.succeeded'].  [None] is a thrown exception. *)
Definition case_payment_intent_succeeded (e : Env) (pi : Stripe.payment)
    (st : Store) : option Store :=
  if Js.truthy_str (Stripe.metadata_subscription_id pi) then
    let subscriptionId :=
      match Stripe.metadata_subscription_id pi with Some s => s | None => EmptyString end in
    match retrieve e subscriptionId with
    | None => None
    | Some subscription =>
        if isActiveStatus (Stripe.status subscription) then
          let interval := Js.or_lit (Stripe.plan_interval subscription) "month" in
          let currentPeriodEnd :=
            periodEndOr e (Stripe.current_period_end subscription) interval in
          match findOne (Stripe.customer subscription) (users st) with
          | Some user =>
              let user' := writePaid e user (Stripe.status subscription)
                             currentPeriodEnd interval in
              Some (invoiceForPayment e subscriptionId pi user' (save user' st))
          | None => Some st
          end
        else Some st
    end
  else Some st.

(** [case 'charge.succeeded'] *)
Definition case_charge_succeeded (e : Env) (charge : Stripe.payment)
    (st : Store) : option Store :=
  if Js.truthy_str (Stripe.metadata_subscription_id charge) then
    let subscriptionId :=
      match Stripe.metadata_subscription_id charge with Some s => s | None => EmptyString end in
    match retrieve e subscriptionId with
    | None => None
    | Some subscription =>
        let interval := Js.or_lit (Stripe.plan_interval subscription) "month" in
        let currentPeriodEnd :=
          periodEndOr e (Stripe.current_period_end subscription) interval in
        match findOne (Stripe.customer subscription) (users st) with
        | Some user =>
            if isActiveStatus (Stripe.status subscription) then
              let user' := writePaid e user (Stripe.status subscription)
                             currentPeriodEnd interval in
              Some (invoiceForPayment e subscriptionId charge user' (save user' st))
            else if String.eqb (Stripe.status subscription) "incomplete" then
              let user' := writePaid e user "active" currentPeriodEnd interval in
              Some (invoiceForPayment e subscriptionId charge user' (save user' st))
            else Some st
        | None => Some st
        end
    end
  else Some st.

(** [case 'customer.subscription.created'] *)
Definition case_subscription_created (e : Env) (s : Stripe.subscription)
    (st : Store) : Store :=
  let interval := Js.or_lit (Stripe.plan_interval s) "month" in
  let currentPeriodEnd := periodEndOr e (Stripe.current_period_end s) interval in
  match findOne (Stripe.customer s) (users st) with
  | Some user => save (writePaid e user (Stripe.status s) currentPeriodEnd interval) st
  | None => st
  end.

(** [case 'customer.subscription.updated'] *)
Definition case_subscription_updated (e : Env) (s : Stripe.subscription)
    (st : Store) : Store :=
  let interval := Js.or_lit (Stripe.plan_interval s) "month" in
  let currentPeriodEnd := periodEndOr e (Stripe.current_period_end s) interval in
  match findOne (Stripe.customer s) (users st) with
  | Some user =>
      let old := Subscription.spread (User.subscription user) in
      save (User.set_subscription user
              (Subscription.mk (Subscription.id old) (Some (Stripe.status s))
                 (Some currentPeriodEnd) (Some (now e)) (Some interval)
                 (Some (Stripe.cancel_at_period_end s)))) st
  | None => st
  end.

(** [case 'customer.subscription.deleted'] *)
Definition case_subscription_deleted (s : Stripe.subscription) (st : Store)
  : Store :=
  match findOne (Stripe.customer s) (users st) with
  | Some user =>
      let old := Subscription.spread (User.subscription user) in
      save (User.set_subscription user
              (Subscription.mk (Subscription.id old) (Some "canceled") None
                 (Subscription.paymentDate old) (Subscription.interval old)
                 (Subscription.cancelAtPeriodEnd old))) st
  | None => st
  end.

(** [case 'invoice.payment_succeeded'] *)
Definition case_invoice_payment_succeeded (e : Env) (invoicePaid : Stripe.invoice)
    (st : Store) : Store :=
  match findOne (Stripe.inv_customer invoicePaid) (users st) with
  | Some userPaid =>
      let old := Subscription.spread (User.subscription userPaid) in
      let userPaid' :=
        User.set_subscription userPaid
          (Subscription.mk (Subscription.id old) (Some "active")
             (Some (Stripe.period_end invoicePaid * 1000)) (Some (now e))
             (Subscription.interval old) (Subscription.cancelAtPeriodEnd old)) in
      fst (handleSuccessfulPayment e
             (mkData (Stripe.inv_subscription invoicePaid)
                (Stripe.inv_subscription invoicePaid)
                (Some (Stripe.amount_paid invoicePaid)) None
                (Stripe.inv_currency invoicePaid)
                (Some (Stripe.inv_id invoicePaid)))
             userPaid' (save userPaid' st))
  | None => st
  end.

(** [case 'invoice.payment_failed'] *)
Definition case_invoice_payment_failed (invoiceFailed : Stripe.invoice)
    (st : Store) : Store :=
  match findOne (Stripe.inv_customer invoiceFailed) (users st) with
  | Some userFailed =>
      let old := Subscription.spread (User.subscription userFailed) in
      save (User.set_subscription userFailed
              (Subscription.mk (Subscription.id old) (Some "past_due")
                 (Subscription.currentPeriodEnd old) (Subscription.paymentDate old)
                 (Subscription.interval old) (Subscription.cancelAtPeriodEnd old))) st
  | None => st
  end.

(** The [switch (event.type)] of [handleWebhook]. *)
Definition dispatch (e : Env) (event : Stripe.event) (st : Store)
  : option Store :=
  match event with
  | Stripe.payment_intent_succeeded pi => case_payment_intent_succeeded e pi st
  | Stripe.charge_succeeded ch => case_charge_succeeded e ch st
  | Stripe.payment_intent_payment_failed _ => Some st
  | Stripe.customer_subscription_created s => Some (case_subscription_created e s st)
  | Stripe.customer_subscription_updated s => Some (case_subscription_updated e s st)
  | Stripe.customer_subscription_deleted s => Some (case_subscription_deleted s st)
  | Stripe.invoice_payment_succeeded i => Some (case_invoice_payment_succeeded e i st)
  | Stripe.invoice_payment_failed i => Some (case_invoice_payment_failed i st)
  | Stripe.other_event _ => Some st
  end.

(** [export const handleWebhook = async (req, res) => ...] *)
Definition handleWebhook (c : Config) (e : Env) (req : Request) (st : Store)
  : Store * Outcome :=
  if negb (stripe c) then
    (st, Responded (mkResponse 500 (Message "Stripe not configured")))
  else
    match constructEvent e (req_body req) (stripe_signature req)
            (STRIPE_WEBHOOK_SECRET c) with
    | None =>
        (st, Responded (mkResponse 400
               (WebhookError "Webhook verification failed"
                  "Invalid webhook signature")))
    | Some event =>
        match dispatch e event st with
        | Some st' => (st', Responded (json Received))
        | None => (st, Rejected)
        end
    end.

(** [req.user && req.user.id] is truthy. *)
Definition authenticated (req : Request) : option Z :=
  if Js.truthy_num (req_user req) then req_user req else None.

(** [!user || !user.subscription || !user.subscription.id] is false: the
    user row, its subscription object and the external id. *)
Definition loadSubscription (uid : Z) (st : Store)
  : option (User.t * Subscription.t * string) :=
  match findByPk uid (users st) with
  | Some user =>
      match User.subscription user with
      | Some s =>
          match Subscription.id s with
          | Some i => if String.eqb i EmptyString then None else Some (user, s, i)
          | None => None
          end
      | None => None
      end
  | None => None
  end.

(** The expiry test of [getSubscriptionStatus]:
    [subscription.current_period_end && now > new Date(current_period_end * 1000)]. *)
Definition periodPassed (e : Env) (subscription : Stripe.subscription) : bool :=
  match Stripe.current_period_end subscription with
  | Some s => negb (s =? 0) && (now e >? s * 1000)
  | None => false
  end.

(** Lines 338-389 of the controller: the merge of the local record with the
    provider's record. *)
Definition mergeStatus (e : Env) (local : Subscription.t)
    (subscription : Stripe.subscription) : StatusView :=
  let databaseStatus := Subscription.status local in
  let stripeStatus := Stripe.status subscription in
  let stripeCancelAtPeriodEnd := Stripe.cancel_at_period_end subscription in
  let finalStatus :=
    if Js.is_str databaseStatus "active" then "active" else stripeStatus in
  let isActive := isActiveStatus finalStatus in
  let expired := isActive && periodPassed e subscription in
  let isActive := if expired then false else isActive in
  let finalStatus := if expired then "expired" else finalStatus in
  let interval :=
    Js.or_lit (Js.or_str (Subscription.interval local)
                 (Stripe.plan_interval subscription)) "month" in
  let currentPeriodEnd :=
    match Subscription.currentPeriodEnd local with
    | Some ms => Some (ms / 1000)
    | None => Stripe.current_period_end subscription
    end in
  mkStatusView (Stripe.id subscription) finalStatus
    (Stripe.current_period_start subscription) currentPeriodEnd
    stripeCancelAtPeriodEnd (Stripe.price_id subscription) interval isActive
    (Subscription.paymentDate local) stripeCancelAtPeriodEnd.

(** [export const getSubscriptionStatus = async (req, res) => ...] *)
Definition getSubscriptionStatus (c : Config) (e : Env) (req : Request)
    (st : Store) : Response :=
  if negb (stripe c) then mkResponse 500 (Message "Stripe not configured")
  else
    match authenticated req with
    | None => mkResponse 401 (Message "Not authenticated")
    | Some userId =>
        match loadSubscription userId st with
        | None => json (StatusBody None)
        | Some (user, local, sid) =>
            match retrieve e sid with
            | None => mkResponse 500 (Failure "Failed to fetch subscription status")
            | Some subscription =>
                json (StatusBody (Some (mergeStatus e local subscription)))
            end
        end
    end.

(** [Math.max(0, Math.ceil(timeDiff / (1000 * 60 * 60 * 24)))] where
    [timeDiff = expiryDate.getTime() - now.getTime()]; a missing
    [current_period_end] makes every intermediate value [NaN]. *)
Definition remainingDays (e : Env) (current_period_end : option Z) : option Z :=
  match current_period_end with
  | Some s =>
      let expiryDate := s * 1000 in
      let timeDiff := expiryDate - now e in
      Some (Z.max 0 (Js.ceil_div timeDiff day_ms))
  | None => None
  end.

(** The [if]/[else if] chain on [remainingDays]; every comparison with [NaN]
    is false. *)
Definition validityStatus (remaining : option Z) : string :=
  match remaining with
  | Some r =>
      if r >? 7 then "good"
      else if r >? 3 then "warning"
      else if r >? 0 then "critical"
      else "expired"
  | None => "expired"
  end.

(** [export const getSubscriptionDetails = async (req, res) => ...] *)
Definition getSubscriptionDetails (c : Config) (e : Env) (req : Request)
    (st : Store) : Response :=
  if negb (stripe c) then mkResponse 500 (Message "Stripe not configured")
  else
    match authenticated req with
    | None => mkResponse 401 (Message "Not authenticated")
    | Some userId =>
        match loadSubscription userId st with
        | None => mkResponse 404 (Message "No subscription found")
        | Some (user, local, sid) =>
            match retrieve e sid with
            | None => mkResponse 500 (Failure "Failed to fetch subscription details")
            | Some subscription =>
                let interval :=
                  Js.or_lit (Js.or_str (Stripe.plan_interval subscription)
                               (Subscription.interval local)) "month" in
                let remaining :=
                  remainingDays e (Stripe.current_period_end subscription) in
                json (DetailsBody
                  (mkStatusView (Stripe.id subscription)
                     (Stripe.status subscription)
                     (Stripe.current_period_start subscription)
                     (Stripe.current_period_end subscription)
                     (Stripe.cancel_at_period_end subscription)
                     (Stripe.price_id subscription) interval
                     (isActiveStatus (Stripe.status subscription))
                     (Subscription.paymentDate local)
                     (Stripe.cancel_at_period_end subscription))
                  (mkPaymentInfo (Subscription.paymentDate local)
                     (option_map (fun s => s * 1000)
                        (Stripe.current_period_end subscription))
                     remaining (validityDays interval)
                     (validityStatus remaining) interval))
            end
        end
    end.

(** A model instance as the ORM tracks it: the values in memory, and whether
    the [subscription] attribute has been assigned since the row was loaded.
    [user.subscription.field = ...] writes into the object the attribute
    holds: the values in memory change, but the attribute is not assigned
    and so not marked as changed.  ([parseUserSubscription] assigns the
    attribute only when the column comes back as a string; here it holds the
    parsed object.) *)
Record Instance := mkInstance {
  values : User.t;
  subscriptionChanged : bool;
}.

(** The instance after writes into the object held by [user.subscription],
    [user'] being the row as it now is in memory. *)
Definition inPlace (user' : User.t) : Instance := mkInstance user' false.

(** [user.save()] on an instance: only attributes marked as changed are
    written. *)
Definition saveInstance (i : Instance) (st : Store) : Store :=
  if subscriptionChanged i then save (values i) st else st.

(** [user.reload()]: the values are read back from the row. *)
Definition reload (i : Instance) (st : Store) : Instance :=
  match findByPk (User.id (values i)) (users st) with
  | Some row => mkInstance row false
  | None => i
  end.

(** The five assignments to properties of [user.subscription] in
    [forceActivateSubscription]. *)
Definition forceActivate (e : Env) (local : Subscription.t)
    (subscription : Stripe.subscription) : Subscription.t :=
  let interval := Js.or_lit (Stripe.plan_interval subscription) "month" in
  Subscription.mk (Subscription.id local) (Some "active")
    (Some (periodEndOr e (Stripe.current_period_end subscription) interval))
    (Some (now e)) (Some interval) (Some false).

(** What [forceActivateSubscription] leaves behind: the tables, the ids for
    which [stripe.subscriptions.update(id, {cancel_at_period_end: false})] was
    issued (its failure is caught and logged), and the response. *)
Record Activation := mkActivation {
  act_store : Store;
  act_updates : list string;
  act_response : Response;
}.

(** [export const forceActivateSubscription = async (req, res) => ...]; the
    answer reads [user.subscription.currentPeriodEnd] after
    [await user.save(); await user.reload()]. *)
Definition forceActivateSubscription (c : Config) (e : Env) (req : Request)
    (st : Store) : Activation :=
  if negb (stripe c) then
    mkActivation st [] (mkResponse 500 (Message "Stripe not configured"))
  else
    match authenticated req with
    | None => mkActivation st [] (mkResponse 401 (Message "Not authenticated"))
    | Some userId =>
        match loadSubscription userId st with
        | None =>
            mkActivation st [] (mkResponse 404 (Message "No subscription found"))
        | Some (user, local, sid) =>
            match retrieve e sid with
            | None =>
                mkActivation st []
                  (mkResponse 500 (Failure "Failed to force-activate subscription"))
            | Some subscription =>
                let interval :=
                  Js.or_lit (Stripe.plan_interval subscription) "month" in
                let instance :=
                  inPlace (User.set_subscription user
                             (forceActivate e local subscription)) in
                let st' := saveInstance instance st in
                let reloaded := values (reload instance st') in
                mkActivation st'
                  (if Stripe.cancel_at_period_end subscription
                   then [Stripe.id subscription] else [])
                  (json (ForceActivated
                     "Subscription force-activated in database"
                     (Stripe.status subscription) "active"
                     (mkActivatedView (Stripe.id subscription) "active"
                        interval false
                        (Subscription.currentPeriodEnd
                           (Subscription.spread (User.subscription reloaded)))
                        true)))
            end
        end
    end.

(** The stored subscription of a user, read back from the table. *)
Definition storedSubscription (uid : Z) (st : Store) : option Subscription.t :=
  match findByPk uid (users st) with
  | Some u => User.subscription u
  | None => None
  end.

End SubscriptionController.

(** ** Further endpoints of the subscription controller

    [cancelSubscription], [resumeSubscription], [confirmPayment],
    [fixSubscriptionStatus] and [debugSubscriptionStatus].  The provider calls
    these make beyond the first plain [retrieve] are fields of [Sdk]; a call
    that throws returns [None] (or [inr] with the error message where the
    code inspects it).  [cancelSubscription] assigns [user.subscription]
    before [user.save()]; the other endpoints write properties of the object
    it holds, and their [user.save()] is that of an [Instance]. *)

Module Endpoints.

Import SubscriptionController.

(** [hay.includes(needle)] *)
Fixpoint includes (needle hay : string) : bool :=
  String.prefix needle hay ||
  match hay with
  | EmptyString => false
  | String _ rest => includes needle rest
  end.

(** [subscription.latest_invoice?.payment_intent] of an expanded retrieve. *)
Record LatestIntent := mkLatestIntent {
  li_status : string;
  li_payment_method : option string;
}.

(** An element of [stripe.charges.list(...).data]. *)
Record Charge := mkCharge {
  ch_status : string;
  ch_metadata_subscription_id : option string;
  ch_subscription : option string;
  ch_description : option string;
}.

(** An element of [stripe.paymentIntents.list(...).data]. *)
Record Intent := mkIntent {
  pi_status : string;
  pi_metadata_subscription_id : option string;
  pi_description : option string;
}.

Record Sdk := mkSdk {
  (* stripe.subscriptions.update(id, { cancel_at_period_end }) *)
  update_cancel_at_period_end : string -> bool -> Stripe.subscription + string;
  (* stripe.subscriptions.retrieve(id, { expand: [latest_invoice, ...] }) *)
  retrieve_expanded : string -> option (Stripe.subscription * option LatestIntent);
  (* a later stripe.subscriptions.retrieve(id) of the same request *)
  retrieve_again : string -> option Stripe.subscription;
  (* stripe.charges.list({ customer, limit: 10 }).data *)
  charges_list : option string -> option (list Charge);
  (* stripe.paymentIntents.list({ customer, limit: 5 }).data *)
  paymentIntents_list : option string -> option (list Intent);
  (* stripe.subscriptions.update(id, { default_payment_method, ... }) *)
  update_default_payment_method : string -> string -> option Stripe.subscription;
}.

Record Reply {A : Type} := mkReply {
  code : Z;
  payload : A;
}.

Arguments mkReply {A} code payload.

(** [{ id, status, currentPeriodEnd, isActive }] *)
Record Summary := mkSummary {
  s_id : string;
  s_status : string;
  s_currentPeriodEnd : option Z;
  s_isActive : bool;
}.

(** *** [cancelSubscription] and [resumeSubscription] *)

Inductive CancelBody :=
| CancelMessage (message : string)
| AlreadyCanceled (id status : string)
| CancelSummary (message id status : string) (cancelAtPeriodEnd : bool)
                (currentPeriodEnd : option Z)
| ResumeSummary (message : string).

(** [user.subscription = { ...user.subscription, status, cancelAtPeriodEnd }] *)
Definition writeCancel (user : User.t) (status : string) (flag : bool) : User.t :=
  let s := Subscription.spread (User.subscription user) in
  User.set_subscription user
    (Subscription.mk (Subscription.id s) (Some status)
       (Subscription.currentPeriodEnd s) (Subscription.paymentDate s)
       (Subscription.interval s) (Some flag)).

(** [export const cancelSubscription = async (req, res) => ...] *)
Definition cancelSubscription (c : Config) (e : Env) (sdk : Sdk)
    (req : Request) (st : Store) : Store * @Reply CancelBody :=
  if negb (stripe c) then
    (st, mkReply 500 (CancelMessage "Stripe not configured"))
  else
    match authenticated req with
    | None => (st, mkReply 401 (CancelMessage "Not authenticated"))
    | Some userId =>
        match loadSubscription userId st with
        | None => (st, mkReply 404 (CancelMessage "No active subscription found"))
        | Some (user, local, sid) =>
            match retrieve e sid with
            | None => (st, mkReply 500 (CancelMessage "Failed to cancel subscription"))
            | Some currentSubscription =>
                if String.eqb (Stripe.status currentSubscription) "canceled" then
                  (st, mkReply 400
                         (AlreadyCanceled (Stripe.id currentSubscription)
                            (Stripe.status currentSubscription)))
                else if Stripe.cancel_at_period_end currentSubscription then
                  (st, mkReply 200
                         (CancelSummary
                            "Subscription is already set to cancel at the end of the current billing period"
                            (Stripe.id currentSubscription)
                            (Stripe.status currentSubscription)
                            (Stripe.cancel_at_period_end currentSubscription)
                            (Stripe.current_period_end currentSubscription)))
                else
                  match update_cancel_at_period_end sdk sid true with
                  | inr message =>
                      if includes "canceled subscription can only update" message
                      then (st, mkReply 400
                                  (AlreadyCanceled (Stripe.id currentSubscription)
                                     "canceled"))
                      else (st, mkReply 500
                                  (CancelMessage "Failed to cancel subscription"))
                  | inl subscription =>
                      (save (writeCancel user (Stripe.status subscription)
                               (Stripe.cancel_at_period_end subscription)) st,
                       mkReply 200
                         (CancelSummary
                            "Subscription will be cancelled at the end of the current billing period"
                            (Stripe.id subscription) (Stripe.status subscription)
                            (Stripe.cancel_at_period_end subscription)
                            (Stripe.current_period_end subscription)))
                  end
            end
        end
    end.

(** The row in memory after [user.subscription.cancelAtPeriodEnd = false]. *)
Definition clearCancel (user : User.t) (local : Subscription.t) : User.t :=
  User.set_subscription user
    (Subscription.mk (Subscription.id local) (Subscription.status local)
       (Subscription.currentPeriodEnd local) (Subscription.paymentDate local)
       (Subscription.interval local) (Some false)).

(** [export const resumeSubscription = async (req, res) => ...] *)
Definition resumeSubscription (c : Config) (e : Env) (sdk : Sdk)
    (req : Request) (st : Store) : Store * @Reply CancelBody :=
  if negb (stripe c) then
    (st, mkReply 500 (CancelMessage "Stripe not configured"))
  else
    match authenticated req with
    | None => (st, mkReply 401 (CancelMessage "Not authenticated"))
    | Some userId =>
        match loadSubscription userId st with
        | None => (st, mkReply 404 (CancelMessage "No subscription found"))
        | Some (user, local, sid) =>
            match retrieve e sid with
            | None => (st, mkReply 500 (CancelMessage "Failed to resume"))
            | Some currentSubscription =>
                if negb (Stripe.cancel_at_period_end currentSubscription) then
                  (st, mkReply 200 (ResumeSummary "Subscription is already active"))
                else
                  match update_cancel_at_period_end sdk sid false with
                  | inr _ => (st, mkReply 500 (CancelMessage "Failed to resume"))
                  | inl _ =>
                      (saveInstance (inPlace (clearCancel user local)) st,
                       mkReply 200 (ResumeSummary "Subscription resumed"))
                  end
            end
        end
    end.

(** *** [confirmPayment] *)


(** The row in memory after [user.subscription.status = ...;
    user.subscription.currentPeriodEnd = new Date(current_period_end * 1000);
    user.subscription.paymentDate = new Date()]; an absent
    [current_period_end] gives an invalid date, [null] once serialized. *)
Definition syncFrom (e : Env) (user : User.t) (local : Subscription.t)
    (subscription : Stripe.subscription) : User.t :=
  User.set_subscription user
    (Subscription.mk (Subscription.id local) (Some (Stripe.status subscription))
       (option_map (fun s => s * 1000) (Stripe.current_period_end subscription))
       (Some (now e)) (Subscription.interval local)
       (Subscription.cancelAtPeriodEnd local)).

Definition summaryOf (subscription : Stripe.subscription) (isActive : bool)
  : Summary :=
  mkSummary (Stripe.id subscription) (Stripe.status subscription)
    (Stripe.current_period_end subscription) isActive.


(** *** [fixSubscriptionStatus] *)

(** The predicate of [charges.data.find(...)]. *)
Definition chargeMatches (subscriptionId : string) (charge : Charge) : bool :=
  String.eqb (ch_status charge) "succeeded" &&
  (Js.is_str (ch_metadata_subscription_id charge) subscriptionId ||
   Js.is_str (ch_subscription charge) subscriptionId ||
   match ch_description charge with
   | Some d => includes subscriptionId d
   | None => false
   end).

(** The predicate of [paymentIntents.data.find(...)]. *)
Definition intentMatches (subscriptionId : string) (pi : Intent) : bool :=
  String.eqb (pi_status pi) "succeeded" &&
  (Js.is_str (pi_metadata_subscription_id pi) subscriptionId ||
   match pi_description pi with
   | Some d => includes subscriptionId d
   | None => false
   end).

Inductive FixBody :=
| FixMessage (message : string)
| Fixed (message : string) (subscription : Summary)
(* currentPeriodEnd: user.subscription.currentPeriodEnd.getTime() / 1000,
   kept in milliseconds *)
| Activated (message id status : string) (currentPeriodEnd_ms : Z)
| FixedByIntent (message id status interval : string) (validityDays : Z)
| CannotActivate (message status : string).

(** The row in memory after the in-place writes that follow a successful
    charge: status, the provider's period end or the interval fallback,
    payment date, interval. *)
Definition writeFixed (e : Env) (user : User.t) (local : Subscription.t)
    (status : string) (currentSubscription : Stripe.subscription) : User.t :=
  let interval := Js.or_lit (Stripe.plan_interval currentSubscription) "month" in
  User.set_subscription user
    (Subscription.mk (Subscription.id local) (Some status)
       (Some (periodEndOr e (Stripe.current_period_end currentSubscription)
                interval))
       (Some (now e)) (Some interval) (Subscription.cancelAtPeriodEnd local)).

(** The row in memory after the in-place writes that follow a successful
    payment intent: the period end is always [Date.now() + validityDays]
    days. *)
Definition writeFixedByIntent (e : Env) (user : User.t)
    (local : Subscription.t) (interval : string) : User.t :=
  User.set_subscription user
    (Subscription.mk (Subscription.id local) (Some "active")
       (Some (now e + validityDays interval * 24 * 60 * 60 * 1000))
       (Some (now e)) (Some interval) (Subscription.cancelAtPeriodEnd local)).

(** Lines 827-879: the search of the recent payment intents. *)
Definition fixByIntent (e : Env) (sdk : Sdk) (st : Store) (user : User.t)
    (local : Subscription.t) (subscription : Stripe.subscription)
  : Store * @Reply FixBody :=
  let failed := (st, mkReply 500 (FixMessage "Failed to fix subscription status")) in
  match paymentIntents_list sdk (User.stripeCustomerId user) with
  | None => failed
  | Some intents =>
      match find (intentMatches (Stripe.id subscription)) intents with
      | Some _ =>
          match retrieve_again sdk (Stripe.id subscription) with
          | None => failed
          | Some subscriptionDetails =>
              let interval :=
                Js.or_lit (Stripe.plan_interval subscriptionDetails) "month" in
              (saveInstance (inPlace (writeFixedByIntent e user local interval)) st,
               mkReply 200
                 (FixedByIntent "Subscription fixed - payment was successful"
                    (Stripe.id subscription) "active" interval
                    (validityDays interval)))
          end
      | None =>
          (st, mkReply 400
                 (CannotActivate
                    "Subscription cannot be activated - no successful payment found"
                    (Stripe.status subscription)))
      end
  end.

(** Lines 770-825: no successful charge was found. *)
Definition fixWithoutCharge (e : Env) (sdk : Sdk) (st : Store) (user : User.t)
    (local : Subscription.t) (subscription : Stripe.subscription)
    (paymentIntent : option LatestIntent) : Store * @Reply FixBody :=
  let rest :=
    if isActiveStatus (Stripe.status subscription) then
      (saveInstance (inPlace (syncFrom e user local subscription)) st,
       mkReply 200
         (Fixed "Subscription is already active" (summaryOf subscription true)))
    else fixByIntent e sdk st user local subscription in
  if String.eqb (Stripe.status subscription) "incomplete" then
    match paymentIntent with
    | Some intent =>
        if String.eqb (li_status intent) "succeeded"
           && Js.truthy_str (li_payment_method intent)
        then
          match update_default_payment_method sdk (Stripe.id subscription)
                  (match li_payment_method intent with
                   | Some m => m
                   | None => EmptyString
                   end) with
          | None =>
              (st, mkReply 500 (FixMessage "Failed to fix subscription status"))
          | Some updatedSubscription =>
              (saveInstance (inPlace (syncFrom e user local updatedSubscription)) st,
               mkReply 200
                 (Fixed "Subscription status fixed and activated"
                    (summaryOf updatedSubscription
                       (isActiveStatus (Stripe.status updatedSubscription)))))
          end
        else rest
    | None => rest
    end
  else rest.

(** [export const fixSubscriptionStatus = async (req, res) => ...] *)
Definition fixSubscriptionStatus (c : Config) (e : Env) (sdk : Sdk)
    (req : Request) (st : Store) : Store * @Reply FixBody :=
  let failed := (st, mkReply 500 (FixMessage "Failed to fix subscription status")) in
  if negb (stripe c) then
    (st, mkReply 500 (FixMessage "Stripe not configured"))
  else
    match authenticated req with
    | None => (st, mkReply 401 (FixMessage "Not authenticated"))
    | Some userId =>
        match loadSubscription userId st with
        | None => (st, mkReply 404 (FixMessage "No subscription found"))
        | Some (user, local, sid) =>
            match retrieve_expanded sdk sid with
            | None => failed
            | Some (subscription, paymentIntent) =>
                match charges_list sdk (User.stripeCustomerId user) with
                | None => failed
                | Some charges =>
                    match find (chargeMatches (Stripe.id subscription)) charges with
                    | Some successfulCharge =>
                        match retrieve_again sdk (Stripe.id subscription) with
                        | None => failed
                        | Some currentSubscription =>
                            if isActiveStatus (Stripe.status currentSubscription)
                            then
                              (saveInstance
                                 (inPlace (writeFixed e user local
                                             (Stripe.status currentSubscription)
                                             currentSubscription)) st,
                               mkReply 200
                                 (Fixed
                                    "Subscription is already active after successful charge"
                                    (summaryOf currentSubscription true)))
                            else
                              let user' :=
                                writeFixed e user local "active"
                                  currentSubscription in
                              (saveInstance (inPlace user') st,
                               mkReply 200
                                 (Activated
                                    "Subscription activated - payment was successful"
                                    (Stripe.id subscription) "active"
                                    (periodEndOr e
                                       (Stripe.current_period_end currentSubscription)
                                       (Js.or_lit
                                          (Stripe.plan_interval currentSubscription)
                                          "month"))))
                        end
                    | None =>
                        fixWithoutCharge e sdk st user local subscription
                          paymentIntent
                    end
                end
            end
        end
    end.

(** *** [debugSubscriptionStatus] *)

Record Calculated := mkCalculated {
  isExpired : bool;
  daysRemaining : Z;
  shouldBeActive : bool;
}.

Inductive DebugBody :=
| DebugMessage (message : string)
| DebugReport (userId : Z) (email : option string)
              (subscription : option Subscription.t)
              (calculated : Calculated) (timestamp : Z).

(** The [calculated] object: the stored period end against the clock. *)
Definition calculate (e : Env) (subscription : option Subscription.t)
  : Calculated :=
  let expiry :=
    match subscription with
    | Some s => Subscription.currentPeriodEnd s
    | None => None
    end in
  let isExpired :=
    match expiry with
    | Some expiryDate => now e >? expiryDate
    | None => false
    end in
  let daysRemaining :=
    match expiry with
    | Some expiryDate => Js.ceil_div (expiryDate - now e) day_ms
    | None => 0
    end in
  mkCalculated isExpired daysRemaining
    (Js.is_str (match subscription with
                | Some s => Subscription.status s
                | None => None
                end) "active"
     && negb isExpired).

(** [export const debugSubscriptionStatus = async (req, res) => ...] *)
Definition debugSubscriptionStatus (e : Env) (req : Request) (st : Store)
  : @Reply DebugBody :=
  match authenticated req with
  | None => mkReply 401 (DebugMessage "Not authenticated")
  | Some userId =>
      match findByPk userId (users st) with
      | None => mkReply 404 (DebugMessage "User not found")
      | Some user =>
          mkReply 200
            (DebugReport (User.id user) (User.email user)
               (User.subscription user)
               (calculate e (User.subscription user)) (now e))
      end
  end.

End Endpoints.

(** ** Invoice endpoints ([getInvoices], [getInvoiceById], [getAllInvoices],
       [resendInvoice])

    The [invoices] list is in insertion order, so [createdAt DESC] is the
    reversed list. *)

Module InvoiceEndpoints.

Import InvoiceController Endpoints.

Inductive InvoiceBody :=
| InvoiceMessage (message : string)
| InvoiceList (rows : list Invoice.t)
| InvoiceRow (row : Invoice.t).

(** [Invoice.findAll({ where: { userId }, order: [['createdAt', 'DESC']] })] *)
Definition getInvoices (req : Request) (st : Store) : @Reply InvoiceBody :=
  match SubscriptionController.authenticated req with
  | None => mkReply 401 (InvoiceMessage "Not authenticated")
  | Some userId =>
      mkReply 200
        (InvoiceList
           (rev (filter (fun i => Invoice.userId i =? userId) (invoices st))))
  end.

(** [Invoice.findOne({ where: { invoiceId: req.params.id, userId } })] *)
Definition getInvoiceById (req : Request) (id : string) (st : Store)
  : @Reply InvoiceBody :=
  match SubscriptionController.authenticated req with
  | None => mkReply 401 (InvoiceMessage "Not authenticated")
  | Some userId =>
      match find (fun i => String.eqb (Invoice.invoiceId i) id
                           && (Invoice.userId i =? userId)) (invoices st) with
      | Some invoice => mkReply 200 (InvoiceRow invoice)
      | None => mkReply 404 (InvoiceMessage "Invoice not found")
      end
  end.

(** [Invoice.findAll({ order: [['createdAt', 'DESC']], limit: 100 })] *)
Definition getAllInvoices (st : Store) : @Reply InvoiceBody :=
  mkReply 200 (InvoiceList (firstn 100 (rev (invoices st)))).

(** [export const resendInvoice = async (req, res) => ...] *)
Definition resendInvoice (e : Env) (id : string) (st : Store)
  : Store * @Reply InvoiceBody :=
  match find (fun i => String.eqb (Invoice.invoiceId i) id) (invoices st) with
  | None => (st, mkReply 404 (InvoiceMessage "Invoice not found"))
  | Some invoice =>
      (sendInvoice e invoice st,
       if emailResult e
       then mkReply 200 (InvoiceMessage "Invoice resent successfully")
       else mkReply 500 (InvoiceMessage "Failed to resend invoice"))
  end.

End InvoiceEndpoints.

(** ** The customer helper ([helpers/stripeCustomerHelper.js]) *)

Module CustomerHelper.

(** The outcome of [stripe.customers.retrieve]: it returns, or throws with
    [error.code === 'resource_missing'], or throws something else. *)
Inductive Lookup := Valid | ResourceMissing | OtherError.

Record Customers := mkCustomers {
  customers_retrieve : string -> Lookup;
  (* stripe.customers.create({ email, name, metadata }).id *)
  customers_create : User.t -> option string;
}.

(** [user.stripeCustomerId = customer.id] *)
Definition setCustomer (user : User.t) (customerId : string) : User.t :=
  User.mk (User.id user) (User.name user) (User.email user) (Some customerId)
    (User.subscription user).

(** [export async function getOrCreateCustomer(user)]; [None] is a thrown
    error. *)
Definition getOrCreateCustomer (sdk : Customers) (user : User.t) (st : Store)
  : Store * option string :=
  let create :=
    match customers_create sdk user with
    | Some customerId => (save (setCustomer user customerId) st, Some customerId)
    | None => (st, None)
    end in
  match User.stripeCustomerId user with
  | Some customerId =>
      if String.eqb customerId EmptyString then create
      else
        match customers_retrieve sdk customerId with
        | Valid => (st, Some customerId)
        | ResourceMissing => create
        | OtherError => (st, None)
        end
  | None => create
  end.

(** [export async function validateCustomer(customerId)] *)
Definition validateCustomer (sdk : Customers) (customerId : string)
  : option bool :=
  match customers_retrieve sdk customerId with
  | Valid => Some true
  | ResourceMissing => Some false
  | OtherError => None
  end.

End CustomerHelper.

(** ** Vocabulary for the webhook properties *)

Module Webhook.

(** The customer a subscription or invoice event is about: the argument of
    the handler's [User.findOne({ where: { stripeCustomerId } })]. *)
Definition eventCustomer (event : Stripe.event) : option string :=
  match event with
  | Stripe.customer_subscription_created s
  | Stripe.customer_subscription_updated s
  | Stripe.customer_subscription_deleted s => Some (Stripe.customer s)
  | Stripe.invoice_payment_succeeded i
  | Stripe.invoice_payment_failed i => Some (Stripe.inv_customer i)
  | _ => None
  end.

(** The columns of a user row that identify the user. *)
Definition identity (u : User.t)
  : Z * option string * option string * option string :=
  (User.id u, User.name u, User.email u, User.stripeCustomerId u).

End Webhook.

(** ** Sample data *)

Module Sample.

Import SubscriptionController.

Definition cfg : Config := mkConfig true (Some "whsec_test").

(** A local record that is [active] with a period end on 2020-09-13. *)
Definition activeLapsed : Subscription.t :=
  Subscription.mk (Some "sub_1") (Some "active") (Some 1600000000000)
    (Some 1597000000000) (Some "month") None.

(** A local record still waiting for its first payment. *)
Definition pending : Subscription.t :=
  Subscription.mk (Some "sub_1") (Some "incomplete") None None None (Some true).

Definition alice (s : option Subscription.t) : User.t :=
  User.mk 1 (Some "Alice") (Some "alice@example.org") (Some "cus_1") s.

Definition bob : User.t :=
  User.mk 2 (Some "Bob") (Some "bob@example.org") (Some "cus_2") None.

Definition store (s : option Subscription.t) : Store :=
  mkStore [bob; alice s] [].

(** The provider's view of [sub_1]. *)
Definition remote (status : string) (current_period_end : option Z)
    (cancel : bool) : Stripe.subscription :=
  Stripe.mkSubscription "sub_1" status "cus_1" (Some 1697000000)
    current_period_end cancel (Some "month") (Some "price_1").

Definition paidInvoice : Stripe.invoice :=
  Stripe.mkInvoice "in_1" "cus_1" 1702000000 (Some "sub_1") 999 (Some "usd").

Definition charge : Stripe.payment :=
  Stripe.mkPayment "ch_1" (Some "sub_1") 999 (Some "usd") None.

(** The SDK accepts the signature [t=1,v1=good] and nothing else; the
    provider knows [sub_1] when [known] is given. *)
Definition env (t : Z) (token : string) (event : Stripe.event)
    (known : option Stripe.subscription) : Env :=
  mkEnv t token
    (fun _ sig _ => if Js.is_str sig "t=1,v1=good" then Some event else None)
    (fun i => if String.eqb i "sub_1" then known else None)
    true.

Definition signed : Request := mkRequest "{...}" (Some "t=1,v1=good") None.
Definition forged : Request := mkRequest "{...}" (Some "t=1,v1=bad") None.
Definition asAlice : Request := mkRequest EmptyString None (Some 1).
Definition asCarol : Request := mkRequest EmptyString None (Some 3).

(** 2023-11-14T22:13:20Z *)
Definition t0 : Z := 1700000000000.

End Sample.

(** Sample answers of the further provider calls. *)
Module Sample2.

Import Endpoints CustomerHelper.

Definition sdk (updated : Stripe.subscription + string)
    (expanded : option (Stripe.subscription * option LatestIntent))
    (again : option Stripe.subscription)
    (charges : option (list Charge)) (intents : option (list Intent)) : Sdk :=
  mkSdk (fun _ _ => updated) (fun _ => expanded) (fun _ => again)
    (fun _ => charges) (fun _ => intents) (fun _ _ => again).

(** A provider that accepts every update and knows nothing else. *)
Definition quiet (updated : Stripe.subscription) : Sdk :=
  sdk (inl updated) None None None None.

Definition paidCharge : Charge :=
  mkCharge "succeeded" (Some "sub_1") None None.

Definition failedCharge : Charge :=
  mkCharge "failed" (Some "sub_1") None None.

Definition row (invoiceId : string) (userId : Z) : Invoice.t :=
  Invoice.mk invoiceId userId "sub_1" (Some "in_1") 999 "usd" "paid"
    (Some "Alice") "alice@example.org" false None.

Definition ledger : Store :=
  mkStore [Sample.bob; Sample.alice (Some Sample.pending)]
    [row "INV-1-A" 1; row "INV-2-B" 2; row "INV-3-C" 1].

Definition customers (known : string) (created : option string) : Customers :=
  mkCustomers
    (fun c => if String.eqb c known then Valid else ResourceMissing)
    (fun _ => created).

End Sample2.

(** ** Properties *)

Import SubscriptionController InvoiceController.

(** *** Arithmetic of the countdown *)

Lemma ceil_div_bounds (a b : Z) :
  0 < b -> (Js.ceil_div a b - 1) * b < a <= Js.ceil_div a b * b.
Proof.
  intro Hb. unfold Js.ceil_div.
  pose proof (Z.div_mod (- a) b ltac:(lia)) as Hdm.
  pose proof (Z.mod_pos_bound (- a) b Hb) as Hm.
  nia.
Qed.

Lemma ceil_div_unique (a b c : Z) :
  0 < b -> (c - 1) * b < a <= c * b -> Js.ceil_div a b = c.
Proof.
  intros Hb Hc. pose proof (ceil_div_bounds a b Hb) as H.
  assert (Js.ceil_div a b < c + 1) by nia.
  assert (c < Js.ceil_div a b + 1) by nia.
  lia.
Qed.

(** *** Loading the local record *)

Lemma loadSubscription_Some uid st user s i :
  loadSubscription uid st = Some (user, s, i) ->
  findByPk uid (users st) = Some user /\ User.subscription user = Some s /\
  Subscription.id s = Some i /\ i <> EmptyString.
Proof.
  unfold loadSubscription.
  destruct (findByPk uid (users st)) as [u|]; [|discriminate].
  destruct (User.subscription u) as [s'|] eqn:Hs; [|discriminate].
  destruct (Subscription.id s') as [i'|] eqn:Hid; [|discriminate].
  destruct (String.eqb i' EmptyString) eqn:Hi; [discriminate|].
  intro H; inversion H; subst.
  repeat split; auto. now apply String.eqb_neq.
Qed.

Lemma loadSubscription_None uid st :
  loadSubscription uid st = None <->
  (storedSubscription uid st = None \/
   exists s, storedSubscription uid st = Some s /\
             Js.truthy_str (Subscription.id s) = false).
Proof.
  unfold loadSubscription, storedSubscription, Js.truthy_str.
  destruct (findByPk uid (users st)) as [u|]; [|tauto].
  destruct (User.subscription u) as [s|]; [|tauto].
  destruct (Subscription.id s) as [i|] eqn:Hid.
  - destruct (String.eqb i EmptyString) eqn:Hi; simpl.
    + split; [intros _; right; exists s; rewrite Hid, Hi; auto | auto].
    + split; [discriminate|].
      intros [H|[s' [H1 H2]]]; [discriminate|].
      inversion H1; subst s'. rewrite Hid, Hi in H2. discriminate.
  - split; [intros _; right; exists s; rewrite Hid; auto | auto].
Qed.

(** C4. A caller who is authenticated but has no local subscription record,
    or whose record has no external subscription id, is answered with the
    not-found result of the status endpoint ([200] with
    [{ subscription: null }], no status of any subscription); a caller whose
    record is found never gets that answer, whatever the state of the
    subscription. *)
Theorem getStatus_reports_none_without_record
    (c : Config) (e : Env) (req : Request) (st : Store) (uid : Z) :
  stripe c = true ->
  authenticated req = Some uid ->
  ((storedSubscription uid st = None \/
    exists s, storedSubscription uid st = Some s /\
              Js.truthy_str (Subscription.id s) = false) <->
   getSubscriptionStatus c e req st = json (StatusBody None)).
Proof.
  intros Hc Ha. rewrite <- loadSubscription_None.
  unfold getSubscriptionStatus. rewrite Hc, Ha. simpl.
  destruct (loadSubscription uid st) as [[[u s] i]|].
  - split; [discriminate|].
    destruct (retrieve e i); unfold json; intro H; inversion H.
  - split; auto.
Qed.

Lemma getStatus_reports_none_without_record_witness :
  getSubscriptionStatus Sample.cfg
    (Sample.env Sample.t0 "K3" (Stripe.other_event "ping") None)
    Sample.asCarol (Sample.store None) = json (StatusBody None).
Proof.
  apply (getStatus_reports_none_without_record Sample.cfg _ Sample.asCarol
           (Sample.store None) 3); [reflexivity | reflexivity |].
  left. reflexivity.
Defined.

(** *** The countdown view *)

Lemma validityStatus_tiers (r : Z) :
  (7 < r -> validityStatus (Some r) = "good") /\
  (4 <= r <= 7 -> validityStatus (Some r) = "warning") /\
  (1 <= r <= 3 -> validityStatus (Some r) = "critical") /\
  (r <= 0 -> validityStatus (Some r) = "expired").
Proof.
  unfold validityStatus.
  rewrite !Z.gtb_ltb.
  destruct (Z.ltb_spec 7 r), (Z.ltb_spec 3 r), (Z.ltb_spec 0 r);
    repeat split; intros; try reflexivity; lia.
Qed.

(** C5. The details endpoint reports
    [remainingDays = max(0, ceiling((periodEnd - now) in days))], the ceiling
    being the integer [days] with [days - 1 < (periodEnd - now)/day <= days],
    and the tier [good] above 7 remaining days, [warning] for 4 to 7,
    [critical] for 1 to 3 and [expired] for 0 or fewer; a period end 8, 5 and
    2 days ahead gives [good], [warning] and [critical], and one a day behind
    gives [expired] with 0 remaining days. *)
Theorem countdown_view
    (c : Config) (e : Env) (req : Request) (st : Store) (uid : Z)
    (user : User.t) (local : Subscription.t) (sid : string)
    (subscription : Stripe.subscription) (s : Z) :
  stripe c = true ->
  authenticated req = Some uid ->
  loadSubscription uid st = Some (user, local, sid) ->
  retrieve e sid = Some subscription ->
  Stripe.current_period_end subscription = Some s ->
  exists view info days,
    getSubscriptionDetails c e req st = json (DetailsBody view info) /\
    (days - 1) * day_ms < s * 1000 - now e <= days * day_ms /\
    p_remainingDays info = Some (Z.max 0 days) /\
    (7 < Z.max 0 days -> p_validityStatus info = "good") /\
    (4 <= Z.max 0 days <= 7 -> p_validityStatus info = "warning") /\
    (1 <= Z.max 0 days <= 3 -> p_validityStatus info = "critical") /\
    (Z.max 0 days <= 0 -> p_validityStatus info = "expired") /\
    (s * 1000 = now e + 8 * day_ms -> p_validityStatus info = "good") /\
    (s * 1000 = now e + 5 * day_ms -> p_validityStatus info = "warning") /\
    (s * 1000 = now e + 2 * day_ms -> p_validityStatus info = "critical") /\
    (s * 1000 = now e - 1 * day_ms ->
     p_validityStatus info = "expired" /\ p_remainingDays info = Some 0).
Proof.
  intros Hc Ha Hl Hr Hp.
  unfold getSubscriptionDetails. rewrite Hc, Ha. simpl. rewrite Hl, Hr, Hp.
  eexists _, _, (Js.ceil_div (s * 1000 - now e) day_ms).
  split; [reflexivity|]. cbn [p_remainingDays p_validityStatus].
  split; [apply ceil_div_bounds; reflexivity|].
  split; [reflexivity|].
  change (remainingDays e (Some s))
    with (Some (Z.max 0 (Js.ceil_div (s * 1000 - now e) day_ms))).
  destruct (validityStatus_tiers
              (Z.max 0 (Js.ceil_div (s * 1000 - now e) day_ms)))
    as (Hg & Hw & Hk & Hx).
  assert (Hex : forall d, s * 1000 = now e + d * day_ms ->
                 Z.max 0 (Js.ceil_div (s * 1000 - now e) day_ms) = Z.max 0 d).
  { intros d Hd. f_equal.
    apply ceil_div_unique; [reflexivity | unfold day_ms in *; lia]. }
  split; [exact Hg|]. split; [exact Hw|]. split; [exact Hk|].
  split; [exact Hx|].
  split; [intro H; rewrite (Hex 8 H); reflexivity|].
  split; [intro H; rewrite (Hex 5 H); reflexivity|].
  split; [intro H; rewrite (Hex 2 H); reflexivity|].
  intro H. rewrite (Hex (-1)) by (unfold day_ms in *; lia). split; reflexivity.
Qed.

Lemma countdown_view_witness :
  exists view info,
    getSubscriptionDetails Sample.cfg
      (Sample.env Sample.t0 "K3" (Stripe.other_event "ping")
         (Some (Sample.remote "active" (Some 1700432000) false)))
      Sample.asAlice (Sample.store (Some Sample.activeLapsed))
    = json (DetailsBody view info) /\
    p_remainingDays info = Some 5 /\ p_validityStatus info = "warning".
Proof.
  destruct (countdown_view Sample.cfg
              (Sample.env Sample.t0 "K3" (Stripe.other_event "ping")
                 (Some (Sample.remote "active" (Some 1700432000) false)))
              Sample.asAlice (Sample.store (Some Sample.activeLapsed)) 1
              _ _ _ _ 1700432000
              eq_refl eq_refl eq_refl eq_refl eq_refl)
    as (view & info & days & Hresp & Hdays & Hrem & _ & _ & _ & _ & _ & Hw & _).
  exists view, info. split; [exact Hresp|]. split.
  - rewrite Hrem. f_equal.
    change (now _) with Sample.t0 in Hdays. unfold Sample.t0, day_ms in Hdays.
    lia.
  - apply Hw. reflexivity.
Defined.

(** *** The webhook ingestor *)

(** C8. With the provider client configured, a webhook request whose
    signature the SDK refuses is answered with status 400 and leaves both
    tables exactly as they were. *)
Theorem webhook_rejects_bad_signature
    (c : Config) (e : Env) (req : Request) (st : Store) :
  stripe c = true ->
  constructEvent e (req_body req) (stripe_signature req)
    (STRIPE_WEBHOOK_SECRET c) = None ->
  handleWebhook c e req st =
    (st, Responded (mkResponse 400
           (WebhookError "Webhook verification failed"
              "Invalid webhook signature"))).
Proof.
  intros Hc Hv. unfold handleWebhook. rewrite Hc, Hv. reflexivity.
Qed.

Lemma webhook_rejects_bad_signature_witness :
  handleWebhook Sample.cfg
    (Sample.env Sample.t0 "K3"
       (Stripe.invoice_payment_succeeded Sample.paidInvoice) None)
    Sample.forged (Sample.store (Some Sample.pending)) =
    (Sample.store (Some Sample.pending),
     Responded (mkResponse 400
       (WebhookError "Webhook verification failed"
          "Invalid webhook signature"))).
Proof.
  apply webhook_rejects_bad_signature; reflexivity.
Defined.

(** *** The status reconciler *)

Lemma getSubscriptionStatus_found
    (c : Config) (e : Env) (req : Request) (st : Store) (uid : Z)
    (user : User.t) (local : Subscription.t) (sid : string)
    (subscription : Stripe.subscription) :
  stripe c = true ->
  authenticated req = Some uid ->
  loadSubscription uid st = Some (user, local, sid) ->
  retrieve e sid = Some subscription ->
  getSubscriptionStatus c e req st =
    json (StatusBody (Some (mergeStatus e local subscription))).
Proof.
  intros Hc Ha Hl Hr. unfold getSubscriptionStatus.
  rewrite Hc, Ha. simpl. rewrite Hl, Hr. reflexivity.
Qed.

Lemma getSubscriptionStatus_success
    (c : Config) (e : Env) (req : Request) (st : Store) (view : StatusView) :
  getSubscriptionStatus c e req st = json (StatusBody (Some view)) ->
  exists uid user local sid subscription,
    authenticated req = Some uid /\
    loadSubscription uid st = Some (user, local, sid) /\
    retrieve e sid = Some subscription /\
    view = mergeStatus e local subscription.
Proof.
  unfold getSubscriptionStatus, json.
  destruct (negb (stripe c)); [discriminate|].
  destruct (authenticated req) as [uid|] eqn:Ha; [|discriminate].
  destruct (loadSubscription uid st) as [[[user local] sid]|] eqn:Hl;
    [|discriminate].
  destruct (retrieve e sid) as [subscription|] eqn:Hr; [|discriminate].
  intro H. inversion H.
  exists uid, user, local, sid, subscription. repeat split; auto.
Qed.

Lemma periodPassed_true (e : Env) (subscription : Stripe.subscription) (s : Z) :
  Stripe.current_period_end subscription = Some s ->
  s <> 0 -> s * 1000 < now e ->
  periodPassed e subscription = true.
Proof.
  intros Hp Hz Hlt. unfold periodPassed. rewrite Hp.
  apply andb_true_iff. split.
  - apply negb_true_iff. now apply Z.eqb_neq.
  - rewrite Z.gtb_ltb. now apply Z.ltb_lt.
Qed.

Lemma periodPassed_false (e : Env) (subscription : Stripe.subscription) :
  (forall s, Stripe.current_period_end subscription = Some s ->
             now e <= s * 1000) ->
  periodPassed e subscription = false.
Proof.
  intro H. unfold periodPassed.
  destruct (Stripe.current_period_end subscription) as [s|]; [|reflexivity].
  specialize (H s eq_refl).
  apply andb_false_iff. right. rewrite Z.gtb_ltb. apply Z.ltb_ge. lia.
Qed.

(** C2, as the code has it.  When the stored status is [active] and the
    provider reports a current period end (a non-zero timestamp) that lies
    before the time of the call, the status endpoint reports
    [isActive = false] and [status = expired]; the stored [currentPeriodEnd]
    plays no part in the test. *)
Theorem getStatus_expired_when_provider_period_passed
    (c : Config) (e : Env) (req : Request) (st : Store) (uid : Z)
    (user : User.t) (local : Subscription.t) (sid : string)
    (subscription : Stripe.subscription) (s : Z) :
  stripe c = true ->
  authenticated req = Some uid ->
  loadSubscription uid st = Some (user, local, sid) ->
  retrieve e sid = Some subscription ->
  Subscription.status local = Some "active" ->
  Stripe.current_period_end subscription = Some s ->
  s <> 0 ->
  s * 1000 < now e ->
  exists view,
    getSubscriptionStatus c e req st = json (StatusBody (Some view)) /\
    v_isActive view = false /\ v_status view = "expired".
Proof.
  intros Hc Ha Hl Hr Hs Hp Hz Hlt.
  exists (mergeStatus e local subscription).
  split; [now apply (getSubscriptionStatus_found c e req st uid user local sid)|].
  unfold mergeStatus. cbn [v_isActive v_status].
  rewrite Hs, (periodPassed_true e subscription s Hp Hz Hlt). split; reflexivity.
Qed.

Lemma getStatus_expired_when_provider_period_passed_witness :
  exists view,
    getSubscriptionStatus Sample.cfg
      (Sample.env Sample.t0 "K3" (Stripe.other_event "ping")
         (Some (Sample.remote "active" (Some 1600000000) false)))
      Sample.asAlice (Sample.store (Some Sample.activeLapsed))
    = json (StatusBody (Some view)) /\
    v_isActive view = false /\ v_status view = "expired".
Proof.
  apply (getStatus_expired_when_provider_period_passed Sample.cfg _
           Sample.asAlice (Sample.store (Some Sample.activeLapsed)) 1
           (Sample.alice (Some Sample.activeLapsed)) Sample.activeLapsed
           "sub_1" (Sample.remote "active" (Some 1600000000) false)
           1600000000);
    try reflexivity; discriminate.
Defined.

(** C2, as stated, fails: the stored record is [active] and its
    [currentPeriodEnd] (2020-09-13) lies before the call (2023-11-14), yet
    the status endpoint reports [active] and [isActive = true], both when the
    provider supplies no period end and when it supplies a later one. *)
Lemma getStatus_lapsed_local_record_still_active :
  let st := Sample.store (Some Sample.activeLapsed) in
  let e1 := Sample.env Sample.t0 "K3" (Stripe.other_event "ping")
              (Some (Sample.remote "active" None false)) in
  let e2 := Sample.env Sample.t0 "K3" (Stripe.other_event "ping")
              (Some (Sample.remote "active" (Some 1702000000) false)) in
  storedSubscription 1 st = Some Sample.activeLapsed /\
  Subscription.status Sample.activeLapsed = Some "active" /\
  Subscription.currentPeriodEnd Sample.activeLapsed = Some 1600000000000 /\
  1600000000000 < now e1 /\ 1600000000000 < now e2 /\
  (exists view,
     getSubscriptionStatus Sample.cfg e1 Sample.asAlice st
     = json (StatusBody (Some view)) /\
     v_status view = "active" /\ v_isActive view = true /\
     v_currentPeriodEnd view = Some 1600000000) /\
  (exists view,
     getSubscriptionStatus Sample.cfg e2 Sample.asAlice st
     = json (StatusBody (Some view)) /\
     v_status view = "active" /\ v_isActive view = true /\
     v_currentPeriodEnd view = Some 1600000000).
Proof.
  cbv zeta. repeat split; try reflexivity;
    eexists; (split; [reflexivity|]); repeat split; reflexivity.
Qed.

(** C3, as the code has it.  When the stored status is [active] and the
    period end reported by the provider has not passed, the status endpoint
    reports [active] whatever status the provider reports (local wins).
    When the stored status is anything else, it reports the provider's
    status, except that a provider status of [active] or [trialing] whose
    period end has passed is reported as [expired]: the provider's status is
    reported whenever it is not [active] or [trialing], also after the period
    end, and whenever the period end has not passed. *)
Theorem getStatus_tie_break
    (c : Config) (e : Env) (req : Request) (st : Store) (uid : Z)
    (user : User.t) (local : Subscription.t) (sid : string)
    (subscription : Stripe.subscription) :
  stripe c = true ->
  authenticated req = Some uid ->
  loadSubscription uid st = Some (user, local, sid) ->
  retrieve e sid = Some subscription ->
  exists view,
    getSubscriptionStatus c e req st = json (StatusBody (Some view)) /\
    (Subscription.status local = Some "active" ->
     (forall s, Stripe.current_period_end subscription = Some s ->
                now e <= s * 1000) ->
     v_status view = "active" /\ v_isActive view = true) /\
    (Subscription.status local <> Some "active" ->
     (Stripe.status subscription <> "active" ->
      Stripe.status subscription <> "trialing" ->
      v_status view = Stripe.status subscription) /\
     ((forall s, Stripe.current_period_end subscription = Some s ->
                 now e <= s * 1000) ->
      v_status view = Stripe.status subscription) /\
     (Stripe.status subscription = "active" \/
      Stripe.status subscription = "trialing" ->
      forall s, Stripe.current_period_end subscription = Some s ->
                s <> 0 -> s * 1000 < now e ->
                v_status view = "expired" /\ v_isActive view = false)).
Proof.
  intros Hc Ha Hl Hr.
  exists (mergeStatus e local subscription).
  split; [now apply (getSubscriptionStatus_found c e req st uid user local sid)|].
  unfold mergeStatus. cbn [v_isActive v_status].
  split.
  - intros -> Hp. rewrite (periodPassed_false e subscription Hp), andb_false_r.
    split; reflexivity.
  - intro Hn.
    assert (Hd : Js.is_str (Subscription.status local) "active" = false).
    { unfold Js.is_str. destruct (Subscription.status local) as [d|];
        [|reflexivity].
      destruct (String.eqb_spec d "active") as [->|]; [congruence|reflexivity]. }
    rewrite Hd. split; [|split].
    + intros H1 H2. unfold isActiveStatus.
      apply String.eqb_neq in H1, H2. now rewrite H1, H2.
    + intro Hp. now rewrite (periodPassed_false e subscription Hp), andb_false_r.
    + intros Hs s Hp Hz Hlt.
      rewrite (periodPassed_true e subscription s Hp Hz Hlt), andb_true_r.
      assert (Hact : isActiveStatus (Stripe.status subscription) = true)
        by (unfold isActiveStatus; destruct Hs as [-> | ->]; reflexivity).
      rewrite Hact. split; reflexivity.
Qed.

Lemma getStatus_tie_break_witness :
  (exists view,
     getSubscriptionStatus Sample.cfg
       (Sample.env Sample.t0 "K3" (Stripe.other_event "ping")
          (Some (Sample.remote "incomplete" (Some 1702000000) false)))
       Sample.asAlice (Sample.store (Some Sample.activeLapsed))
     = json (StatusBody (Some view)) /\
     v_status view = "active" /\ v_isActive view = true) /\
  (exists view,
     getSubscriptionStatus Sample.cfg
       (Sample.env Sample.t0 "K3" (Stripe.other_event "ping")
          (Some (Sample.remote "canceled" (Some 1600000000) false)))
       Sample.asAlice (Sample.store (Some Sample.pending))
     = json (StatusBody (Some view)) /\
     v_status view = "canceled").
Proof.
  split.
  - destruct (getStatus_tie_break Sample.cfg
                (Sample.env Sample.t0 "K3" (Stripe.other_event "ping")
                   (Some (Sample.remote "incomplete" (Some 1702000000) false)))
                Sample.asAlice (Sample.store (Some Sample.activeLapsed)) 1
                _ _ _ _ eq_refl eq_refl eq_refl eq_refl)
      as (view & Hresp & Hactive & _).
    exists view. split; [exact Hresp|]. apply Hactive; [reflexivity|].
    intros s Hs. inversion Hs. unfold Sample.env, Sample.t0. simpl. lia.
  - destruct (getStatus_tie_break Sample.cfg
                (Sample.env Sample.t0 "K3" (Stripe.other_event "ping")
                   (Some (Sample.remote "canceled" (Some 1600000000) false)))
                Sample.asAlice (Sample.store (Some Sample.pending)) 1
                _ _ _ _ eq_refl eq_refl eq_refl eq_refl)
      as (view & Hresp & _ & Hother).
    exists view. split; [exact Hresp|].
    destruct (Hother ltac:(discriminate)) as (H & _).
    apply H; discriminate.
Defined.

(** C3, as stated, fails: the stored status is [incomplete], so the
    provider's status [active] should be used, but the provider's period end
    (2020-09-13) lies before the call (2023-11-14) and the status endpoint
    reports [expired] with [isActive = false]. *)
Lemma getStatus_provider_active_reported_expired :
  let r := Sample.remote "active" (Some 1600000000) false in
  let e := Sample.env Sample.t0 "K3" (Stripe.other_event "ping") (Some r) in
  let st := Sample.store (Some Sample.pending) in
  storedSubscription 1 st = Some Sample.pending /\
  Subscription.status Sample.pending = Some "incomplete" /\
  retrieve e "sub_1" = Some r /\
  Stripe.status r = "active" /\
  exists view,
    getSubscriptionStatus Sample.cfg e Sample.asAlice st
    = json (StatusBody (Some view)) /\
    v_status view = "expired" /\ v_isActive view = false /\
    v_status view <> Stripe.status r.
Proof.
  cbv zeta. repeat (split; [reflexivity|]).
  eexists. split; [reflexivity|]. split; [reflexivity|].
  split; [reflexivity|]. discriminate.
Qed.

(** C10. In every successful answer of the status endpoint,
    [cancelAtPeriodEnd] and [willCancelAtPeriodEnd] are the provider's
    freshly fetched [cancel_at_period_end], whatever the stored record says;
    [interval] and [currentPeriodEnd] are the stored values whenever the
    stored record has them, and [status] is the stored status when that is
    [active] and the provider's period end has not passed. *)
Theorem getStatus_cancel_flag_from_provider
    (c : Config) (e : Env) (req : Request) (st : Store) (view : StatusView) :
  getSubscriptionStatus c e req st = json (StatusBody (Some view)) ->
  exists uid user local sid subscription,
    authenticated req = Some uid /\
    loadSubscription uid st = Some (user, local, sid) /\
    retrieve e sid = Some subscription /\
    v_cancelAtPeriodEnd view = Stripe.cancel_at_period_end subscription /\
    v_willCancelAtPeriodEnd view = Stripe.cancel_at_period_end subscription /\
    (forall local',
       v_cancelAtPeriodEnd (mergeStatus e local' subscription)
       = v_cancelAtPeriodEnd view /\
       v_willCancelAtPeriodEnd (mergeStatus e local' subscription)
       = v_willCancelAtPeriodEnd view) /\
    (forall i, Subscription.interval local = Some i -> i <> EmptyString ->
               v_interval view = i) /\
    (forall ms, Subscription.currentPeriodEnd local = Some ms ->
                v_currentPeriodEnd view = Some (ms / 1000)) /\
    (Subscription.status local = Some "active" ->
     periodPassed e subscription = false ->
     v_status view = "active").
Proof.
  intro H.
  destruct (getSubscriptionStatus_success c e req st view H)
    as (uid & user & local & sid & subscription & Ha & Hl & Hr & ->).
  exists uid, user, local, sid, subscription.
  repeat (split; [solve [auto]|]).
  unfold mergeStatus. cbn [v_interval v_currentPeriodEnd v_status].
  split; [|split].
  - intros i Hi Hne. rewrite Hi. unfold Js.or_str, Js.truthy_str, Js.or_lit.
    apply String.eqb_neq in Hne. rewrite Hne. simpl. now rewrite Hne.
  - intros ms Hms. now rewrite Hms.
  - intros Hs Hp. rewrite Hs, Hp. reflexivity.
Qed.

Lemma getStatus_cancel_flag_from_provider_witness :
  exists view,
    getSubscriptionStatus Sample.cfg
      (Sample.env Sample.t0 "K3" (Stripe.other_event "ping")
         (Some (Sample.remote "active" (Some 1702000000) false)))
      Sample.asAlice (Sample.store (Some Sample.pending))
    = json (StatusBody (Some view)) /\
    Subscription.cancelAtPeriodEnd Sample.pending = Some true /\
    v_cancelAtPeriodEnd view = false /\ v_willCancelAtPeriodEnd view = false.
Proof.
  pose (e := Sample.env Sample.t0 "K3" (Stripe.other_event "ping")
               (Some (Sample.remote "active" (Some 1702000000) false))).
  pose (r := Sample.remote "active" (Some 1702000000) false).
  exists (mergeStatus e Sample.pending r).
  split; [reflexivity|]. split; [reflexivity|].
  destruct (getStatus_cancel_flag_from_provider Sample.cfg e Sample.asAlice
              (Sample.store (Some Sample.pending))
              (mergeStatus e Sample.pending r) eq_refl)
    as (uid & user & local & sid & subscription & Ha & Hl & Hr & H1 & H2 & _).
  injection Ha as Huid. rewrite <- Huid in Hl.
  vm_compute in Hl. injection Hl as Hu Hloc Hsid.
  rewrite <- Hsid in Hr. vm_compute in Hr. injection Hr as Hsub.
  rewrite <- Hsub in H1, H2. split; [exact H1 | exact H2].
Defined.

(** *** The tables under [save] and [Invoice.create] *)

Lemma findOne_save (customer : string) (u : User.t) (s : Subscription.t)
    (st : Store) :
  findOne customer (users st) = Some u ->
  findOne customer (users (save (User.set_subscription u s) st))
  = Some (User.set_subscription u s).
Proof.
  unfold findOne, save. cbn [users].
  intro H.
  assert (Hu : Js.is_str (User.stripeCustomerId (User.set_subscription u s))
                 customer = true)
    by (apply find_some in H; tauto).
  assert (Hi : User.id (User.set_subscription u s) = User.id u) by reflexivity.
  rewrite Hi. generalize dependent (User.set_subscription u s). intros u' Hu _.
  induction (users st) as [|x l IH]; [discriminate|].
  cbn [map find] in *.
  destruct (User.id x =? User.id u) eqn:Hid.
  - now rewrite Hu.
  - destruct (Js.is_str (User.stripeCustomerId x) customer) eqn:Hx.
    + inversion H; subst x. rewrite Z.eqb_refl in Hid. discriminate.
    + now apply IH.
Qed.

Lemma findByPk_save (u : User.t) (s : Subscription.t) (st : Store) :
  In u (users st) ->
  findByPk (User.id u) (users (save (User.set_subscription u s) st))
  = Some (User.set_subscription u s).
Proof.
  unfold findByPk, save. cbn [users].
  assert (Hi : User.id (User.set_subscription u s) = User.id u) by reflexivity.
  rewrite Hi. revert Hi. generalize (User.set_subscription u s). intros u' Hi.
  induction (users st) as [|x l IH]; [intros []|].
  intros Hin. cbn [map find].
  destruct (User.id x =? User.id u) eqn:Hid.
  - now rewrite Hi, Z.eqb_refl.
  - rewrite Hid. destruct Hin as [->|Hin].
    + rewrite Z.eqb_refl in Hid. discriminate.
    + now apply IH.
Qed.

Lemma save_save (u : User.t) (s1 s2 : Subscription.t) (st : Store) :
  save (User.set_subscription (User.set_subscription u s1) s2)
    (save (User.set_subscription u s1) st)
  = save (User.set_subscription u s2) st.
Proof.
  unfold save. cbn [users invoices User.id User.set_subscription].
  f_equal. rewrite map_map. apply map_ext. intro r.
  destruct (User.id r =? User.id u) eqn:Hid; cbn [User.id].
  - now rewrite Z.eqb_refl.
  - now rewrite Hid.
Qed.

Lemma map_unless {A : Type} (p : A -> bool) (g : A -> A) (l : list A) :
  existsb p l = false -> map (fun i => if p i then g i else i) l = l.
Proof.
  induction l as [|x l IH]; [reflexivity|].
  cbn [existsb map]. intro H. apply orb_false_iff in H as [Hx Hl].
  rewrite Hx. f_equal. now apply IH.
Qed.

Lemma handleSuccessfulPayment_creates (e : Env) (d : subscriptionData)
    (user : User.t) (st : Store) (sid : string) (amt : Z) (mail : string) :
  Js.or_str (sd_id d) (sd_subscriptionId d) = Some sid ->
  Js.or_num (sd_amount d) (sd_price d) = Some amt ->
  User.email user = Some mail ->
  fresh e (invoices st) ->
  fst (handleSuccessfulPayment e d user st)
  = mkStore (users st) (invoices st ++ [issued e d user sid amt mail]).
Proof.
  intros Hs Ha Hm Hf. unfold fresh in Hf.
  unfold handleSuccessfulPayment, generateInvoice, create.
  rewrite Hs, Ha, Hm, Hf. cbn [fst]. unfold sendInvoice, issued.
  destruct (emailResult e); [|reflexivity].
  unfold markSent. cbn [users invoices Invoice.invoiceId]. f_equal.
  rewrite map_app. cbn [map Invoice.invoiceId]. rewrite String.eqb_refl.
  f_equal.
  apply (map_unless
           (fun i => String.eqb (Invoice.invoiceId i) (newInvoiceId e))).
  exact Hf.
Qed.

Lemma fresh_app (e : Env) (l : list Invoice.t) (inv : Invoice.t) :
  fresh e l -> Invoice.invoiceId inv <> newInvoiceId e -> fresh e (l ++ [inv]).
Proof.
  unfold fresh. intros Hl Hne. rewrite existsb_app, Hl. cbn [existsb orb].
  apply String.eqb_neq in Hne. now rewrite Hne.
Qed.

Lemma handleSuccessfulPayment_users (e : Env) (d : subscriptionData)
    (user : User.t) (st : Store) :
  users (fst (handleSuccessfulPayment e d user st)) = users st.
Proof.
  unfold handleSuccessfulPayment, generateInvoice, create.
  destruct (Js.or_str _ _); [|reflexivity].
  destruct (Js.or_num _ _); [|reflexivity].
  destruct (User.email user); [|reflexivity].
  destruct (existsb _ _); [reflexivity|].
  cbn [fst]. unfold sendInvoice. now destruct (emailResult e).
Qed.

Lemma handleWebhook_verified (c : Config) (e : Env) (req : Request)
    (st : Store) (event : Stripe.event) :
  stripe c = true ->
  constructEvent e (req_body req) (stripe_signature req)
    (STRIPE_WEBHOOK_SECRET c) = Some event ->
  handleWebhook c e req st =
    match dispatch e event st with
    | Some st' => (st', Responded (json Received))
    | None => (st, Rejected)
    end.
Proof.
  intros Hc Hv. unfold handleWebhook. now rewrite Hc, Hv.
Qed.

(** *** Webhook replay *)

Lemma case_invoice_payment_succeeded_period (e : Env) (i : Stripe.invoice)
    (st : Store) (user : User.t) :
  findOne (Stripe.inv_customer i) (users st) = Some user ->
  exists u s,
    findOne (Stripe.inv_customer i)
      (users (case_invoice_payment_succeeded e i st)) = Some u /\
    User.subscription u = Some s /\
    User.email u = User.email user /\
    Subscription.status s = Some "active" /\
    Subscription.currentPeriodEnd s = Some (Stripe.period_end i * 1000).
Proof.
  intro Hf. unfold case_invoice_payment_succeeded. rewrite Hf.
  rewrite handleSuccessfulPayment_users.
  eexists _, _. split; [apply findOne_save; exact Hf|].
  repeat split; reflexivity.
Qed.

Lemma case_invoice_payment_succeeded_invoice (e : Env) (i : Stripe.invoice)
    (st : Store) (user : User.t) (sid mail : string) :
  findOne (Stripe.inv_customer i) (users st) = Some user ->
  Stripe.inv_subscription i = Some sid ->
  Stripe.amount_paid i <> 0 ->
  User.email user = Some mail ->
  fresh e (invoices st) ->
  exists inv,
    invoices (case_invoice_payment_succeeded e i st) = (invoices st ++ [inv])%list /\
    Invoice.invoiceId inv = newInvoiceId e /\
    Invoice.stripeInvoiceId inv = Some (Stripe.inv_id i).
Proof.
  intros Hf Hs Ha Hm Hfr. unfold case_invoice_payment_succeeded. rewrite Hf.
  erewrite handleSuccessfulPayment_creates with (sid := sid) (mail := mail)
    (amt := Stripe.amount_paid i).
  - eexists. cbn [invoices]. split; [reflexivity|]. split; reflexivity.
  - cbn [sd_id sd_subscriptionId]. rewrite Hs. unfold Js.or_str.
    now destruct (Js.truthy_str (Some sid)).
  - cbn [sd_amount sd_price]. unfold Js.or_num, Js.truthy_num.
    apply Z.eqb_neq in Ha. now rewrite Ha.
  - exact Hm.
  - exact Hfr.
Qed.

(** C1, as the code has it.  Each delivery of a verified
    [invoice.payment_succeeded] event whose customer is a local user sets
    [currentPeriodEnd] to the event's period end, so the value after the
    second delivery equals the value after the first; and each delivery for
    which the Invoice row can be inserted adds one row, so the two
    deliveries leave two Invoice rows with distinct invoice ids and the same
    provider invoice id. *)
Theorem webhook_replay_one_invoice_per_delivery
    (c : Config) (e1 e2 : Env) (req : Request) (st : Store)
    (i : Stripe.invoice) (user : User.t) :
  stripe c = true ->
  constructEvent e1 (req_body req) (stripe_signature req)
    (STRIPE_WEBHOOK_SECRET c) = Some (Stripe.invoice_payment_succeeded i) ->
  constructEvent e2 (req_body req) (stripe_signature req)
    (STRIPE_WEBHOOK_SECRET c) = Some (Stripe.invoice_payment_succeeded i) ->
  findOne (Stripe.inv_customer i) (users st) = Some user ->
  let st1 := fst (handleWebhook c e1 req st) in
  let st2 := fst (handleWebhook c e2 req st1) in
  (exists u1 u2 s1 s2,
     findOne (Stripe.inv_customer i) (users st1) = Some u1 /\
     User.subscription u1 = Some s1 /\
     findOne (Stripe.inv_customer i) (users st2) = Some u2 /\
     User.subscription u2 = Some s2 /\
     Subscription.currentPeriodEnd s1 = Some (Stripe.period_end i * 1000) /\
     Subscription.currentPeriodEnd s2 = Subscription.currentPeriodEnd s1) /\
  (forall sid mail,
     Stripe.inv_subscription i = Some sid ->
     Stripe.amount_paid i <> 0 ->
     User.email user = Some mail ->
     fresh e1 (invoices st) ->
     fresh e2 (invoices st) ->
     newInvoiceId e1 <> newInvoiceId e2 ->
     exists inv1 inv2,
       invoices st1 = (invoices st ++ [inv1])%list /\
       invoices st2 = (invoices st ++ [inv1; inv2])%list /\
       Invoice.invoiceId inv1 <> Invoice.invoiceId inv2 /\
       Invoice.stripeInvoiceId inv1 = Some (Stripe.inv_id i) /\
       Invoice.stripeInvoiceId inv2 = Some (Stripe.inv_id i)).
Proof.
  intros Hc Hv1 Hv2 Hf st1 st2.
  assert (E1 : st1 = case_invoice_payment_succeeded e1 i st).
  { unfold st1. now rewrite (handleWebhook_verified c e1 req st _ Hc Hv1). }
  assert (E2 : st2 = case_invoice_payment_succeeded e2 i st1).
  { unfold st2. now rewrite (handleWebhook_verified c e2 req st1 _ Hc Hv2). }
  destruct (case_invoice_payment_succeeded_period e1 i st user Hf)
    as (u1 & s1 & Hf1 & Hs1 & Hm1 & _ & Hp1).
  rewrite <- E1 in Hf1.
  destruct (case_invoice_payment_succeeded_period e2 i st1 u1 Hf1)
    as (u2 & s2 & Hf2 & Hs2 & _ & _ & Hp2).
  rewrite <- E2 in Hf2.
  split.
  - exists u1, u2, s1, s2. repeat split; auto. congruence.
  - intros sid mail Hsid Hamt Hmail Hfr1 Hfr2 Hne.
    destruct (case_invoice_payment_succeeded_invoice e1 i st user sid mail
                Hf Hsid Hamt Hmail Hfr1) as (inv1 & Hi1 & Hid1 & Hr1).
    rewrite <- E1 in Hi1.
    assert (Hfr2' : fresh e2 (invoices st1)).
    { rewrite Hi1. apply fresh_app; [exact Hfr2 | congruence]. }
    rewrite <- Hm1 in Hmail.
    destruct (case_invoice_payment_succeeded_invoice e2 i st1 u1 sid mail
                Hf1 Hsid Hamt Hmail Hfr2') as (inv2 & Hi2 & Hid2 & Hr2).
    rewrite <- E2 in Hi2.
    exists inv1, inv2. repeat split; auto; [|congruence].
    rewrite Hi2, Hi1, <- app_assoc. reflexivity.
Qed.

Lemma webhook_replay_one_invoice_per_delivery_witness :
  let ev := Stripe.invoice_payment_succeeded Sample.paidInvoice in
  let e1 := Sample.env Sample.t0 "K3J7Q2M9X" ev None in
  let e2 := Sample.env (Sample.t0 + 60000) "P8D4W1Z6B" ev None in
  let st := Sample.store (Some Sample.pending) in
  let st1 := fst (handleWebhook Sample.cfg e1 Sample.signed st) in
  let st2 := fst (handleWebhook Sample.cfg e2 Sample.signed st1) in
  exists inv1 inv2,
    invoices st1 = (invoices st ++ [inv1])%list /\
    invoices st2 = (invoices st ++ [inv1; inv2])%list /\
    Invoice.invoiceId inv1 <> Invoice.invoiceId inv2 /\
    Invoice.stripeInvoiceId inv1 = Some "in_1" /\
    Invoice.stripeInvoiceId inv2 = Some "in_1".
Proof.
  intros ev e1 e2 st st1 st2.
  destruct (webhook_replay_one_invoice_per_delivery Sample.cfg e1 e2
              Sample.signed st Sample.paidInvoice
              (Sample.alice (Some Sample.pending))
              eq_refl eq_refl eq_refl eq_refl) as [_ H].
  apply (H "sub_1" "alice@example.org");
    try reflexivity; vm_compute; discriminate.
Defined.

(** C1, as stated, fails: the same verified [invoice.payment_succeeded]
    event delivered twice, a minute apart, leaves two Invoice rows for the
    provider invoice [in_1]. *)
Lemma webhook_replay_creates_second_invoice :
  let ev := Stripe.invoice_payment_succeeded Sample.paidInvoice in
  let e1 := Sample.env Sample.t0 "K3J7Q2M9X" ev None in
  let e2 := Sample.env (Sample.t0 + 60000) "P8D4W1Z6B" ev None in
  let st := Sample.store (Some Sample.pending) in
  let st1 := fst (handleWebhook Sample.cfg e1 Sample.signed st) in
  let st2 := fst (handleWebhook Sample.cfg e2 Sample.signed st1) in
  invoices st = [] /\
  List.length (invoices st1) = 1%nat /\
  List.length (invoices st2) = 2%nat /\
  map Invoice.stripeInvoiceId (invoices st2) = [Some "in_1"; Some "in_1"] /\
  map Invoice.invoiceId (invoices st2)
  = ["INV-1700000000000-K3J7Q2M9X"; "INV-1700000060000-P8D4W1Z6B"].
Proof.
  cbv zeta. repeat split; vm_compute; reflexivity.
Qed.

(** *** Charges for an incomplete subscription *)

(** C6. A verified [charge.succeeded] event that names a subscription which
    the provider reports as [incomplete], and whose customer is a local
    user, sets the stored status to [active], appends exactly one Invoice
    row (for that user, subscription and charge) and is acknowledged; the
    row can be inserted when the charge amount is non-zero, the user has an
    e-mail address and the generated invoice id is unused. *)
Theorem charge_succeeded_activates_incomplete
    (c : Config) (e : Env) (req : Request) (st : Store)
    (ch : Stripe.payment) (sid : string)
    (subscription : Stripe.subscription) (user : User.t) (mail : string) :
  stripe c = true ->
  constructEvent e (req_body req) (stripe_signature req)
    (STRIPE_WEBHOOK_SECRET c) = Some (Stripe.charge_succeeded ch) ->
  Stripe.metadata_subscription_id ch = Some sid ->
  sid <> EmptyString ->
  retrieve e sid = Some subscription ->
  Stripe.status subscription = "incomplete" ->
  findOne (Stripe.customer subscription) (users st) = Some user ->
  Stripe.pay_amount ch <> 0 ->
  User.email user = Some mail ->
  fresh e (invoices st) ->
  exists st' u s inv,
    handleWebhook c e req st = (st', Responded (json Received)) /\
    findOne (Stripe.customer subscription) (users st') = Some u /\
    User.id u = User.id user /\
    User.subscription u = Some s /\
    Subscription.status s = Some "active" /\
    invoices st' = (invoices st ++ [inv])%list /\
    Invoice.userId inv = User.id user /\
    Invoice.subscriptionId inv = sid /\
    Invoice.stripeInvoiceId inv
    = Js.or_str (Stripe.pay_invoice ch) (Some (Stripe.pay_id ch)).
Proof.
  intros Hc Hv Hm Hne Hr Hst Hf Ha Hmail Hfr.
  rewrite (handleWebhook_verified c e req st _ Hc Hv).
  cbn [dispatch]. unfold case_charge_succeeded.
  rewrite Hm. cbn [Js.truthy_str].
  apply String.eqb_neq in Hne. rewrite Hne. cbn [negb].
  rewrite Hr, Hf, Hst. cbn [isActiveStatus String.eqb Ascii.eqb Bool.eqb orb].
  unfold invoiceForPayment.
  set (d := mkData _ _ _ _ _ _).
  set (u := writePaid e user "active" _ _).
  rewrite (handleSuccessfulPayment_creates e d u (save u st) sid
             (Stripe.pay_amount ch) mail).
  - exists (mkStore (users (save u st))
              (invoices (save u st) ++ [issued e d u sid (Stripe.pay_amount ch) mail])),
           u, (Subscription.mk
                 (Subscription.id (Subscription.spread (User.subscription user)))
                 (Some "active")
                 (Some (periodEndOr e (Stripe.current_period_end subscription)
                          (Js.or_lit (Stripe.plan_interval subscription) "month")))
                 (Some (now e))
                 (Some (Js.or_lit (Stripe.plan_interval subscription) "month"))
                 (Subscription.cancelAtPeriodEnd
                    (Subscription.spread (User.subscription user)))),
           (issued e d u sid (Stripe.pay_amount ch) mail).
    split; [reflexivity|]. cbn [users].
    split; [apply (findOne_save _ user); exact Hf|].
    repeat split; reflexivity.
  - subst d. cbn [sd_id sd_subscriptionId]. unfold Js.or_str, Js.truthy_str.
    now rewrite Hne.
  - subst d. cbn [sd_amount sd_price]. unfold Js.or_num, Js.truthy_num.
    apply Z.eqb_neq in Ha. now rewrite Ha.
  - exact Hmail.
  - exact Hfr.
Qed.

Lemma charge_succeeded_activates_incomplete_witness :
  let e := Sample.env Sample.t0 "K3J7Q2M9X"
             (Stripe.charge_succeeded Sample.charge)
             (Some (Sample.remote "incomplete" (Some 1702000000) false)) in
  let st := Sample.store (Some Sample.pending) in
  exists st' u s inv,
    handleWebhook Sample.cfg e Sample.signed st
    = (st', Responded (json Received)) /\
    findOne "cus_1" (users st') = Some u /\
    User.id u = 1 /\
    User.subscription u = Some s /\
    Subscription.status s = Some "active" /\
    invoices st' = (invoices st ++ [inv])%list /\
    Invoice.userId inv = 1 /\
    Invoice.subscriptionId inv = "sub_1" /\
    Invoice.stripeInvoiceId inv = Some "ch_1".
Proof.
  intros e st.
  apply (charge_succeeded_activates_incomplete Sample.cfg e Sample.signed st
           Sample.charge "sub_1"
           (Sample.remote "incomplete" (Some 1702000000) false)
           (Sample.alice (Some Sample.pending)) "alice@example.org");
    try reflexivity; discriminate.
Defined.

(** *** Force-activate *)

Lemma loadSubscription_save (uid : Z) (st : Store) (user : User.t)
    (local local' : Subscription.t) (sid : string) :
  loadSubscription uid st = Some (user, local, sid) ->
  Subscription.id local' = Subscription.id local ->
  loadSubscription uid (save (User.set_subscription user local') st)
  = Some (User.set_subscription user local', local', sid).
Proof.
  intros Hl Hid.
  destruct (loadSubscription_Some _ _ _ _ _ Hl) as (Hf & Hs & Hi & Hne).
  unfold findByPk in Hf. apply find_some in Hf as [Hin Hu].
  apply Z.eqb_eq in Hu. subst uid.
  unfold loadSubscription. rewrite (findByPk_save user local' st Hin).
  cbn [User.subscription User.set_subscription]. rewrite Hid, Hi.
  apply String.eqb_neq in Hne. now rewrite Hne.
Qed.

Lemma saveInstance_inPlace (user' : User.t) (st : Store) :
  saveInstance (inPlace user') st = st.
Proof. reflexivity. Qed.

Lemma forceActivateSubscription_store
    (c : Config) (e : Env) (req : Request) (st : Store) :
  act_store (forceActivateSubscription c e req st) = st.
Proof.
  unfold forceActivateSubscription.
  destruct (negb (stripe c)); [reflexivity|].
  destruct (authenticated req) as [uid|]; [|reflexivity].
  destruct (loadSubscription uid st) as [[[user local] sid]|]; [|reflexivity].
  destruct (retrieve e sid) as [r|]; reflexivity.
Qed.

(** C7 at a failing input.  The caller's stored record is [incomplete] with
    [cancelAtPeriodEnd = true] and the provider returns the subscription.
    Force-activate answers 200 "Subscription force-activated in database"
    with status [active] and [cancelAtPeriodEnd = false], and asks the
    provider to clear its flag, but the five values are written into the
    object held by [user.subscription] without assigning the attribute, so
    [user.save()] writes nothing: the stored status is still [incomplete]
    and the stored flag still set, after one call and after two. *)
Lemma forceActivate_answers_active_but_stores_nothing :
  let r := Sample.remote "incomplete" (Some 1702000000) true in
  let e1 := Sample.env Sample.t0 "K3" (Stripe.other_event "ping") (Some r) in
  let e2 := Sample.env (Sample.t0 + 60000) "P8" (Stripe.other_event "ping")
              (Some r) in
  let st := Sample.store (Some Sample.pending) in
  let a1 := forceActivateSubscription Sample.cfg e1 Sample.asAlice st in
  let a2 := forceActivateSubscription Sample.cfg e2 Sample.asAlice
              (act_store a1) in
  act_response a1
  = json (ForceActivated "Subscription force-activated in database"
            "incomplete" "active"
            (mkActivatedView "sub_1" "active" "month" false None true)) /\
  act_updates a1 = ["sub_1"] /\
  storedSubscription 1 (act_store a1) = Some Sample.pending /\
  storedSubscription 1 (act_store a2) = Some Sample.pending /\
  Subscription.status Sample.pending = Some "incomplete" /\
  Subscription.cancelAtPeriodEnd Sample.pending = Some true.
Proof.
  cbv zeta. repeat split; reflexivity.
Qed.

(** *** Acknowledgment of verified events *)

Lemma dispatch_total (e : Env) (event : Stripe.event) (st : Store) :
  (forall p sid,
     event = Stripe.payment_intent_succeeded p \/
     event = Stripe.charge_succeeded p ->
     Stripe.metadata_subscription_id p = Some sid -> sid <> EmptyString ->
     retrieve e sid <> None) ->
  exists st', dispatch e event st = Some st'.
Proof.
  intro H.
  destruct event as [p|p|p|s|s|s|i|i|t]; cbn [dispatch]; try (eexists; reflexivity).
  - unfold case_payment_intent_succeeded.
    destruct (Stripe.metadata_subscription_id p) as [sid|] eqn:Hm;
      cbn [Js.truthy_str]; [|eexists; reflexivity].
    destruct (String.eqb_spec sid EmptyString) as [|Hne]; cbn [negb];
      [eexists; reflexivity|].
    specialize (H p sid (or_introl eq_refl) Hm Hne).
    destruct (retrieve e sid) as [r|]; [|congruence].
    destruct (isActiveStatus (Stripe.status r)); [|eexists; reflexivity].
    destruct (findOne _ _); eexists; reflexivity.
  - unfold case_charge_succeeded.
    destruct (Stripe.metadata_subscription_id p) as [sid|] eqn:Hm;
      cbn [Js.truthy_str]; [|eexists; reflexivity].
    destruct (String.eqb_spec sid EmptyString) as [|Hne]; cbn [negb];
      [eexists; reflexivity|].
    specialize (H p sid (or_intror eq_refl) Hm Hne).
    destruct (retrieve e sid) as [r|]; [|congruence].
    destruct (findOne _ _); [|eexists; reflexivity].
    destruct (isActiveStatus (Stripe.status r)); [eexists; reflexivity|].
    destruct (String.eqb (Stripe.status r) "incomplete"); eexists; reflexivity.
Qed.

Lemma charge_lookup_failure_rejects (c : Config) (e : Env) (req : Request)
    (st : Store) (ch : Stripe.payment) (sid : string) :
  stripe c = true ->
  constructEvent e (req_body req) (stripe_signature req)
    (STRIPE_WEBHOOK_SECRET c) = Some (Stripe.charge_succeeded ch) ->
  Stripe.metadata_subscription_id ch = Some sid -> sid <> EmptyString ->
  retrieve e sid = None ->
  handleWebhook c e req st = (st, Rejected).
Proof.
  intros Hc Hv Hm Hne Hr.
  rewrite (handleWebhook_verified c e req st _ Hc Hv).
  cbn [dispatch]. unfold case_charge_succeeded.
  rewrite Hm. cbn [Js.truthy_str].
  apply String.eqb_neq in Hne. rewrite Hne. cbn [negb]. now rewrite Hr.
Qed.

(** C9, as the code has it.  A webhook request that passes signature
    verification is answered [200] with [{ received: true }] whenever the
    handler runs to its end, that is, unless the provider lookup of a
    [payment_intent.succeeded] or [charge.succeeded] event throws; the
    outcome of the invoice side effect does not matter, and an event of an
    unrecognized type leaves both tables unchanged. *)
Theorem webhook_acknowledges_verified_events
    (c : Config) (e : Env) (req : Request) (st : Store)
    (event : Stripe.event) :
  stripe c = true ->
  constructEvent e (req_body req) (stripe_signature req)
    (STRIPE_WEBHOOK_SECRET c) = Some event ->
  (forall p sid,
     event = Stripe.payment_intent_succeeded p \/
     event = Stripe.charge_succeeded p ->
     Stripe.metadata_subscription_id p = Some sid -> sid <> EmptyString ->
     retrieve e sid <> None) ->
  exists st',
    handleWebhook c e req st = (st', Responded (json Received)) /\
    (forall type, event = Stripe.other_event type -> st' = st).
Proof.
  intros Hc Hv Hp.
  rewrite (handleWebhook_verified c e req st event Hc Hv).
  destruct (dispatch_total e event st Hp) as [st' Hd]. rewrite Hd.
  exists st'. split; [reflexivity|].
  intros type ->. cbn [dispatch] in Hd. congruence.
Qed.

Lemma webhook_acknowledges_verified_events_witness :
  let e := Sample.env Sample.t0 "K3" (Stripe.other_event "customer.created")
             None in
  handleWebhook Sample.cfg e Sample.signed (Sample.store (Some Sample.pending))
  = (Sample.store (Some Sample.pending), Responded (json Received)).
Proof.
  intro e.
  destruct (webhook_acknowledges_verified_events Sample.cfg e Sample.signed
              (Sample.store (Some Sample.pending))
              (Stripe.other_event "customer.created") eq_refl eq_refl)
    as (st' & Hresp & Hsame).
  - intros p sid [H|H]; discriminate H.
  - rewrite Hresp. now rewrite (Hsame "customer.created" eq_refl).
Defined.

(** C9, as stated, fails: a verified [charge.succeeded] event whose
    subscription the provider cannot return makes the handler's promise
    reject before any response is written, so no [200] acknowledgment is
    sent; the same holds for [payment_intent.succeeded]. *)
Lemma webhook_lookup_failure_not_acknowledged :
  let st := Sample.store (Some Sample.pending) in
  let e1 := Sample.env Sample.t0 "K3" (Stripe.charge_succeeded Sample.charge)
              None in
  let e2 := Sample.env Sample.t0 "K3"
              (Stripe.payment_intent_succeeded Sample.charge) None in
  constructEvent e1 (req_body Sample.signed) (stripe_signature Sample.signed)
    (STRIPE_WEBHOOK_SECRET Sample.cfg)
  = Some (Stripe.charge_succeeded Sample.charge) /\
  retrieve e1 "sub_1" = None /\
  handleWebhook Sample.cfg e1 Sample.signed st = (st, Rejected) /\
  handleWebhook Sample.cfg e2 Sample.signed st = (st, Rejected) /\
  (forall st', handleWebhook Sample.cfg e1 Sample.signed st
               <> (st', Responded (json Received))).
Proof.
  cbv zeta. repeat split; try reflexivity. intros st' H. vm_compute in H.
  discriminate H.
Qed.

(** ** Further properties of the webhook handler *)

Lemma create_appends (invoiceId : string) (userId : Z)
    (subscriptionId stripeInvoiceId : option string) (amount : option Z)
    (currency : string) (customerName customerEmail : option string)
    (st : Store) (inv : Invoice.t) (st' : Store) :
  create invoiceId userId subscriptionId stripeInvoiceId amount currency
    customerName customerEmail st = Some (inv, st') ->
  existsb (fun i => String.eqb (Invoice.invoiceId i) invoiceId) (invoices st)
  = false /\
  Invoice.invoiceId inv = invoiceId /\
  st' = mkStore (users st) (invoices st ++ [inv]).
Proof.
  unfold create.
  destruct subscriptionId as [sid|]; [|discriminate].
  destruct amount as [amt|]; [|discriminate].
  destruct customerEmail as [mail|]; [|discriminate].
  destruct (existsb _ (invoices st)) eqn:Hf; [discriminate|].
  intro H. inversion H. auto.
Qed.

Lemma sendInvoice_new_row (e : Env) (inv : Invoice.t) (st : Store) :
  existsb (fun i => String.eqb (Invoice.invoiceId i) (Invoice.invoiceId inv))
    (invoices st) = false ->
  exists inv',
    Invoice.invoiceId inv' = Invoice.invoiceId inv /\
    sendInvoice e inv (mkStore (users st) (invoices st ++ [inv]))
    = mkStore (users st) (invoices st ++ [inv']).
Proof.
  intro Hf. unfold sendInvoice.
  destruct (emailResult e); [|exists inv; auto].
  unfold markSent. cbn [users invoices].
  rewrite map_app. cbn [map]. rewrite String.eqb_refl.
  rewrite (map_unless
             (fun i => String.eqb (Invoice.invoiceId i) (Invoice.invoiceId inv))
             _ _ Hf).
  eexists. split; [|reflexivity]. reflexivity.
Qed.

Lemma handleSuccessfulPayment_appends (e : Env) (d : subscriptionData)
    (user : User.t) (st : Store) :
  fst (handleSuccessfulPayment e d user st) = st \/
  exists inv,
    fresh e (invoices st) /\
    Invoice.invoiceId inv = newInvoiceId e /\
    fst (handleSuccessfulPayment e d user st)
    = mkStore (users st) (invoices st ++ [inv]).
Proof.
  unfold handleSuccessfulPayment, generateInvoice.
  destruct (create _ _ _ _ _ _ _ _ st) as [[inv st']|] eqn:Hc; [|now left].
  right. apply create_appends in Hc as (Hf & Hid & ->).
  rewrite <- Hid in Hf.
  destruct (sendInvoice_new_row e inv st Hf) as (inv' & Hid' & Hs).
  exists inv'. cbn [fst]. rewrite Hs.
  repeat split; [unfold fresh; now rewrite <- Hid | congruence].
Qed.

Lemma payment_shape (e : Env) (d : subscriptionData) (u : User.t)
    (s : Subscription.t) (st : Store) :
  In u (users st) ->
  let st' := fst (handleSuccessfulPayment e d (User.set_subscription u s)
                    (save (User.set_subscription u s) st)) in
  exists u s,
    In u (users st) /\
    (st' = save (User.set_subscription u s) st \/
     exists inv,
       fresh e (invoices st) /\ Invoice.invoiceId inv = newInvoiceId e /\
       st' = mkStore (users (save (User.set_subscription u s) st))
               (invoices st ++ [inv])).
Proof.
  intros Hin st'. exists u, s. split; [exact Hin|].
  destruct (handleSuccessfulPayment_appends e d (User.set_subscription u s)
              (save (User.set_subscription u s) st))
    as [Hsame | (inv & Hf & Hid & Happ)].
  - left. exact Hsame.
  - right. exists inv. cbn [save invoices] in *. repeat split; auto.
Qed.

(** What a handler may do to the tables: rewrite the subscription of rows
    with one user's primary key, then append at most one invoice row with
    the generated invoice id. *)
Lemma dispatch_shape (e : Env) (event : Stripe.event) (st st' : Store) :
  dispatch e event st = Some st' ->
  (st' = st \/
   exists u s,
     In u (users st) /\
     (st' = save (User.set_subscription u s) st \/
      exists inv,
        fresh e (invoices st) /\ Invoice.invoiceId inv = newInvoiceId e /\
        st' = mkStore (users (save (User.set_subscription u s) st))
                (invoices st ++ [inv]))).
Proof.
  assert (Hfind : forall c u, findOne c (users st) = Some u -> In u (users st)).
  { intros c u H. unfold findOne in H. now apply find_some in H. }
  destruct event as [p|p|p|s|s|s|i|i|t]; cbn [dispatch].
  - unfold case_payment_intent_succeeded.
    destruct (Js.truthy_str _); [|intro H; inversion H; now left].
    destruct (retrieve e _) as [r|]; [|discriminate].
    destruct (isActiveStatus _); [|intro H; inversion H; now left].
    destruct (findOne _ _) as [u|] eqn:Hf; [|intro H; inversion H; now left].
    intro H. inversion H as [H']. right.
    unfold invoiceForPayment, writePaid.
    apply payment_shape. eapply Hfind; exact Hf.
  - unfold case_charge_succeeded.
    destruct (Js.truthy_str _); [|intro H; inversion H; now left].
    destruct (retrieve e _) as [r|]; [|discriminate].
    destruct (findOne _ _) as [u|] eqn:Hf; [|intro H; inversion H; now left].
    destruct (isActiveStatus _).
    + intro H. inversion H as [H']. right.
      unfold invoiceForPayment, writePaid.
      apply payment_shape. eapply Hfind; exact Hf.
    + destruct (String.eqb _ "incomplete"); [|intro H; inversion H; now left].
      intro H. inversion H as [H']. right.
      unfold invoiceForPayment, writePaid.
      apply payment_shape. eapply Hfind; exact Hf.
  - intro H; inversion H; now left.
  - unfold case_subscription_created.
    destruct (findOne _ _) as [u|] eqn:Hf; intro H; inversion H; [|now left].
    right. unfold writePaid. eexists u, _. split; [eapply Hfind; exact Hf|].
    left. reflexivity.
  - unfold case_subscription_updated.
    destruct (findOne _ _) as [u|] eqn:Hf; intro H; inversion H; [|now left].
    right. eexists u, _. split; [eapply Hfind; exact Hf|]. left. reflexivity.
  - unfold case_subscription_deleted.
    destruct (findOne _ _) as [u|] eqn:Hf; intro H; inversion H; [|now left].
    right. eexists u, _. split; [eapply Hfind; exact Hf|]. left. reflexivity.
  - unfold case_invoice_payment_succeeded.
    destruct (findOne _ _) as [u|] eqn:Hf; intro H; inversion H as [H'];
      [|now left].
    right. apply payment_shape. eapply Hfind; exact Hf.
  - unfold case_invoice_payment_failed.
    destruct (findOne _ _) as [u|] eqn:Hf; intro H; inversion H; [|now left].
    right. eexists u, _. split; [eapply Hfind; exact Hf|]. left. reflexivity.
  - intro H; inversion H; now left.
Qed.

Lemma handleWebhook_shape (c : Config) (e : Env) (req : Request) (st : Store) :
  fst (handleWebhook c e req st) = st \/
  exists event,
    dispatch e event st = Some (fst (handleWebhook c e req st)).
Proof.
  unfold handleWebhook.
  destruct (negb (stripe c)); [now left|].
  destruct (constructEvent e _ _ _) as [event|]; [|now left].
  destruct (dispatch e event st) as [st'|] eqn:Hd; [|now left].
  right. exists event. exact Hd.
Qed.

(** X1. Whatever request the webhook endpoint receives, it never deletes or
    rewrites an existing Invoice row: the invoices afterwards are the
    invoices before followed by at most one new row. *)
Theorem webhook_invoices_append_only
    (c : Config) (e : Env) (req : Request) (st : Store) :
  exists added,
    invoices (fst (handleWebhook c e req st)) = (invoices st ++ added)%list /\
    (List.length added <= 1)%nat.
Proof.
  destruct (handleWebhook_shape c e req st) as [-> | (event & Hd)].
  - exists []. rewrite app_nil_r. auto.
  - apply dispatch_shape in Hd as [-> | (u & s & _ & [-> | (inv & _ & _ & ->)])].
    + exists []. rewrite app_nil_r. auto.
    + exists []. cbn [save invoices]. rewrite app_nil_r. auto.
    + exists [inv]. auto.
Qed.

Lemma NoDup_snoc {A : Type} (l : list A) (x : A) :
  NoDup l -> ~ In x l -> NoDup (l ++ [x]).
Proof.
  intros Hl Hx. induction l as [|y l IH]; cbn.
  - constructor; [intros []|constructor].
  - inversion Hl; subst. constructor.
    + rewrite in_app_iff. intros [H|[H|[]]]; [contradiction|].
      subst. apply Hx. now left.
    + apply IH; [assumption|]. intro H. apply Hx. now right.
Qed.

Lemma fresh_not_in (e : Env) (l : list Invoice.t) :
  fresh e l -> ~ In (newInvoiceId e) (map Invoice.invoiceId l).
Proof.
  unfold fresh. intros Hf Hin. apply in_map_iff in Hin as (i & Hi & Hin).
  assert (existsb (fun i => String.eqb (Invoice.invoiceId i) (newInvoiceId e)) l
          = true) as Ht.
  { apply existsb_exists. exists i. split; [exact Hin|].
    rewrite Hi. apply String.eqb_refl. }
  congruence.
Qed.

(** X2. The webhook endpoint keeps invoice ids unique: if no two Invoice
    rows share an [invoiceId] before a request, none do after it. *)
Theorem webhook_keeps_invoice_ids_unique
    (c : Config) (e : Env) (req : Request) (st : Store) :
  NoDup (map Invoice.invoiceId (invoices st)) ->
  NoDup (map Invoice.invoiceId (invoices (fst (handleWebhook c e req st)))).
Proof.
  intro Hn.
  destruct (handleWebhook_shape c e req st) as [-> | (event & Hd)];
    [exact Hn|].
  apply dispatch_shape in Hd as [-> | (u & s & _ & [-> | (inv & Hf & Hid & ->)])];
    try exact Hn.
  cbn [invoices]. rewrite map_app. cbn [map]. rewrite Hid.
  apply NoDup_snoc; [exact Hn | now apply fresh_not_in].
Qed.

Lemma webhook_keeps_invoice_ids_unique_witness :
  let ev := Stripe.invoice_payment_succeeded Sample.paidInvoice in
  let e := Sample.env Sample.t0 "K3J7Q2M9X" ev None in
  NoDup (map Invoice.invoiceId
           (invoices (fst (handleWebhook Sample.cfg e Sample.signed
                             Sample2.ledger)))).
Proof.
  intros ev e. apply webhook_keeps_invoice_ids_unique.
  cbn. repeat constructor; cbn; intuition discriminate.
Defined.

Lemma NoDup_map_eq {A B : Type} (f : A -> B) (l : list A) (a b : A) :
  NoDup (map f l) -> In a l -> In b l -> f a = f b -> a = b.
Proof.
  induction l as [|x l IH]; [intros _ []|].
  cbn [map]. intros Hn Ha Hb Hf. inversion Hn as [|? ? Hx Hl]; subst.
  destruct Ha as [->|Ha], Hb as [->|Hb]; auto.
  - exfalso. apply Hx. rewrite Hf. now apply in_map.
  - exfalso. apply Hx. rewrite <- Hf. now apply in_map.
Qed.

Lemma save_identity (u : User.t) (s : Subscription.t) (st : Store) :
  In u (users st) ->
  NoDup (map User.id (users st)) ->
  map Webhook.identity (users (save (User.set_subscription u s) st))
  = map Webhook.identity (users st).
Proof.
  intros Hin Hn. unfold save. cbn [users]. rewrite map_map.
  apply map_ext_in. intros r Hr. cbn [User.id User.set_subscription].
  destruct (User.id r =? User.id u) eqn:Hid; [|reflexivity].
  apply Z.eqb_eq in Hid.
  now rewrite (NoDup_map_eq User.id (users st) r u Hn Hr Hin Hid).
Qed.

(** X3. Provided primary keys are unique, no webhook request adds, removes
    or re-identifies a user: the ids, names, e-mail addresses and customer
    ids of the rows are the same afterwards, in the same order. *)
Theorem webhook_preserves_user_identity
    (c : Config) (e : Env) (req : Request) (st : Store) :
  NoDup (map User.id (users st)) ->
  map Webhook.identity (users (fst (handleWebhook c e req st)))
  = map Webhook.identity (users st).
Proof.
  intro Hn.
  destruct (handleWebhook_shape c e req st) as [-> | (event & Hd)];
    [reflexivity|].
  apply dispatch_shape in Hd
    as [-> | (u & s & Hin & [-> | (inv & _ & _ & ->)])];
    [reflexivity | |]; cbn [users]; now apply save_identity.
Qed.

Lemma webhook_preserves_user_identity_witness :
  let ev := Stripe.customer_subscription_deleted
              (Sample.remote "canceled" None false) in
  let e := Sample.env Sample.t0 "K3" ev None in
  map Webhook.identity
    (users (fst (handleWebhook Sample.cfg e Sample.signed Sample2.ledger)))
  = [(2, Some "Bob", Some "bob@example.org", Some "cus_2");
     (1, Some "Alice", Some "alice@example.org", Some "cus_1")].
Proof.
  intros ev e.
  rewrite (webhook_preserves_user_identity Sample.cfg e Sample.signed
             Sample2.ledger); [reflexivity|].
  cbn. repeat constructor; cbn; intuition discriminate.
Defined.

(** X4. A verified subscription or invoice event whose customer id matches
    no local user changes nothing and is still acknowledged with 200. *)
Theorem webhook_unknown_customer_changes_nothing
    (c : Config) (e : Env) (req : Request) (st : Store)
    (event : Stripe.event) (customer : string) :
  stripe c = true ->
  constructEvent e (req_body req) (stripe_signature req)
    (STRIPE_WEBHOOK_SECRET c) = Some event ->
  Webhook.eventCustomer event = Some customer ->
  findOne customer (users st) = None ->
  handleWebhook c e req st = (st, Responded (json Received)).
Proof.
  intros Hc Hv He Hf.
  rewrite (handleWebhook_verified c e req st event Hc Hv).
  destruct event as [p|p|p|s|s|s|i|i|t]; cbn [Webhook.eventCustomer] in He;
    try discriminate He; inversion He; subst customer; cbn [dispatch];
    unfold case_subscription_created, case_subscription_updated,
      case_subscription_deleted, case_invoice_payment_succeeded,
      case_invoice_payment_failed; now rewrite Hf.
Qed.

Lemma webhook_unknown_customer_changes_nothing_witness :
  let ev := Stripe.invoice_payment_succeeded
              (Stripe.mkInvoice "in_9" "cus_9" 1702000000 (Some "sub_9") 999
                 (Some "usd")) in
  let e := Sample.env Sample.t0 "K3" ev None in
  handleWebhook Sample.cfg e Sample.signed Sample2.ledger
  = (Sample2.ledger, Responded (json Received)).
Proof.
  intros ev e.
  apply (webhook_unknown_customer_changes_nothing Sample.cfg e Sample.signed
           Sample2.ledger ev "cus_9"); reflexivity.
Defined.

(** X5. A verified [payment_intent.succeeded] event changes nothing when the
    provider reports the linked subscription in any status other than
    [active] or [trialing] (for instance [incomplete]): unlike
    [charge.succeeded], it neither activates the subscription nor issues an
    invoice. *)
Theorem payment_intent_leaves_inactive_subscription
    (c : Config) (e : Env) (req : Request) (st : Store)
    (pi : Stripe.payment) (sid : string) (subscription : Stripe.subscription) :
  stripe c = true ->
  constructEvent e (req_body req) (stripe_signature req)
    (STRIPE_WEBHOOK_SECRET c) = Some (Stripe.payment_intent_succeeded pi) ->
  Stripe.metadata_subscription_id pi = Some sid ->
  retrieve e sid = Some subscription ->
  Stripe.status subscription <> "active" ->
  Stripe.status subscription <> "trialing" ->
  handleWebhook c e req st = (st, Responded (json Received)).
Proof.
  intros Hc Hv Hm Hr Ha Ht.
  rewrite (handleWebhook_verified c e req st _ Hc Hv).
  cbn [dispatch]. unfold case_payment_intent_succeeded. rewrite Hm.
  destruct (Js.truthy_str (Some sid)); [|reflexivity].
  rewrite Hr. unfold isActiveStatus.
  apply String.eqb_neq in Ha, Ht. now rewrite Ha, Ht.
Qed.

Lemma payment_intent_leaves_inactive_subscription_witness :
  let ev := Stripe.payment_intent_succeeded Sample.charge in
  let e := Sample.env Sample.t0 "K3" ev
             (Some (Sample.remote "incomplete" (Some 1702000000) false)) in
  handleWebhook Sample.cfg e Sample.signed (Sample.store (Some Sample.pending))
  = (Sample.store (Some Sample.pending), Responded (json Received)).
Proof.
  intros ev e.
  apply (payment_intent_leaves_inactive_subscription Sample.cfg e Sample.signed
           _ Sample.charge "sub_1"
           (Sample.remote "incomplete" (Some 1702000000) false));
    try reflexivity; discriminate.
Defined.

Lemma validityDays_or_lit (interval : option string) :
  validityDays (Js.or_lit interval "month")
  = if Js.is_str interval "year" then 365 else 30.
Proof.
  unfold Js.or_lit, Js.is_str, validityDays.
  destruct interval as [i|]; [|reflexivity].
  destruct (String.eqb_spec i EmptyString) as [->|]; reflexivity.
Qed.

(** X6. When a verified [customer.subscription.created] event carries no
    period end (absent or zero) and its customer is a local user, the stored
    period end is the time of handling plus 365 days if the plan interval is
    [year], and plus 30 days for any other or missing interval; the stored
    interval is the plan interval, [month] when missing. *)
Theorem subscription_created_falls_back_to_interval
    (c : Config) (e : Env) (req : Request) (st : Store)
    (s : Stripe.subscription) (user : User.t) :
  stripe c = true ->
  constructEvent e (req_body req) (stripe_signature req)
    (STRIPE_WEBHOOK_SECRET c) = Some (Stripe.customer_subscription_created s) ->
  findOne (Stripe.customer s) (users st) = Some user ->
  Js.truthy_num (Stripe.current_period_end s) = false ->
  exists u sub,
    findOne (Stripe.customer s) (users (fst (handleWebhook c e req st)))
    = Some u /\
    User.subscription u = Some sub /\
    Subscription.status sub = Some (Stripe.status s) /\
    Subscription.interval sub
    = Some (Js.or_lit (Stripe.plan_interval s) "month") /\
    Subscription.currentPeriodEnd sub
    = Some (now e + (if Js.is_str (Stripe.plan_interval s) "year"
                     then 365 else 30) * day_ms).
Proof.
  intros Hc Hv Hf Hp.
  rewrite (handleWebhook_verified c e req st _ Hc Hv).
  cbn [dispatch fst]. unfold case_subscription_created. rewrite Hf.
  unfold writePaid. eexists _, _.
  split; [apply findOne_save; exact Hf|].
  split; [reflexivity|]. cbn [Subscription.status Subscription.interval
                              Subscription.currentPeriodEnd].
  repeat split. unfold periodEndOr. rewrite Hp, validityDays_or_lit.
  unfold day_ms. f_equal. lia.
Qed.

Lemma subscription_created_falls_back_to_interval_witness :
  let s := Stripe.mkSubscription "sub_1" "incomplete" "cus_1" None None false
             (Some "year") (Some "price_y") in
  let e := Sample.env Sample.t0 "K3" (Stripe.customer_subscription_created s)
             None in
  exists u sub,
    findOne "cus_1"
      (users (fst (handleWebhook Sample.cfg e Sample.signed
                     (Sample.store None)))) = Some u /\
    User.subscription u = Some sub /\
    Subscription.currentPeriodEnd sub = Some (1700000000000 + 365 * 86400000).
Proof.
  intros s e.
  destruct (subscription_created_falls_back_to_interval Sample.cfg e
              Sample.signed (Sample.store None) s (Sample.alice None)
              eq_refl eq_refl eq_refl eq_refl)
    as (u & sub & Hf & Hs & _ & _ & Hp).
  exists u, sub. repeat split; assumption.
Defined.

(** X7. A verified [customer.subscription.deleted] event for a local user
    stores status [canceled] and clears the period end, and keeps the
    external id, interval, payment date and cancel flag of the record; no
    invoice row is touched. *)
Theorem subscription_deleted_keeps_record
    (c : Config) (e : Env) (req : Request) (st : Store)
    (s : Stripe.subscription) (user : User.t) :
  stripe c = true ->
  constructEvent e (req_body req) (stripe_signature req)
    (STRIPE_WEBHOOK_SECRET c) = Some (Stripe.customer_subscription_deleted s) ->
  findOne (Stripe.customer s) (users st) = Some user ->
  let old := Subscription.spread (User.subscription user) in
  let st' := fst (handleWebhook c e req st) in
  invoices st' = invoices st /\
  exists u sub,
    findOne (Stripe.customer s) (users st') = Some u /\
    User.subscription u = Some sub /\
    Subscription.status sub = Some "canceled" /\
    Subscription.currentPeriodEnd sub = None /\
    Subscription.id sub = Subscription.id old /\
    Subscription.interval sub = Subscription.interval old /\
    Subscription.paymentDate sub = Subscription.paymentDate old /\
    Subscription.cancelAtPeriodEnd sub = Subscription.cancelAtPeriodEnd old.
Proof.
  intros Hc Hv Hf old st'. unfold st'.
  rewrite (handleWebhook_verified c e req st _ Hc Hv).
  cbn [dispatch fst]. unfold case_subscription_deleted. rewrite Hf.
  split; [reflexivity|].
  eexists _, _. split; [apply findOne_save; exact Hf|].
  repeat split; reflexivity.
Qed.

Lemma subscription_deleted_keeps_record_witness :
  let s := Sample.remote "canceled" None false in
  let e := Sample.env Sample.t0 "K3" (Stripe.customer_subscription_deleted s)
             None in
  let st' := fst (handleWebhook Sample.cfg e Sample.signed
                    (Sample.store (Some Sample.activeLapsed))) in
  exists u sub,
    findOne "cus_1" (users st') = Some u /\
    User.subscription u = Some sub /\
    Subscription.status sub = Some "canceled" /\
    Subscription.currentPeriodEnd sub = None /\
    Subscription.id sub = Some "sub_1".
Proof.
  intros s e st'.
  destruct (subscription_deleted_keeps_record Sample.cfg e Sample.signed
              (Sample.store (Some Sample.activeLapsed)) s
              (Sample.alice (Some Sample.activeLapsed))
              eq_refl eq_refl eq_refl)
    as (_ & u & sub & Hf & Hs & Hst & Hp & Hid & _).
  exists u, sub. repeat split; assumption.
Defined.

(** X8. A verified [invoice.payment_succeeded] event for a local user still
    activates the subscription and is acknowledged, but adds no Invoice row,
    when the row cannot be inserted: the invoice amount is zero, the event
    names no subscription, or the user has no e-mail address. *)
Theorem paid_invoice_without_row
    (c : Config) (e : Env) (req : Request) (st : Store)
    (i : Stripe.invoice) (user : User.t) :
  stripe c = true ->
  constructEvent e (req_body req) (stripe_signature req)
    (STRIPE_WEBHOOK_SECRET c) = Some (Stripe.invoice_payment_succeeded i) ->
  findOne (Stripe.inv_customer i) (users st) = Some user ->
  Stripe.amount_paid i = 0 \/ Stripe.inv_subscription i = None \/
  User.email user = None ->
  exists st' u sub,
    handleWebhook c e req st = (st', Responded (json Received)) /\
    invoices st' = invoices st /\
    findOne (Stripe.inv_customer i) (users st') = Some u /\
    User.subscription u = Some sub /\
    Subscription.status sub = Some "active".
Proof.
  intros Hc Hv Hf Hbad.
  rewrite (handleWebhook_verified c e req st _ Hc Hv).
  cbn [dispatch]. unfold case_invoice_payment_succeeded. rewrite Hf.
  set (u' := User.set_subscription user _).
  set (d := mkData _ _ _ _ _ _).
  assert (Hnone : generateInvoice e d u' (save u' st) = None).
  { unfold generateInvoice, create, d, u'.
    cbn [sd_id sd_subscriptionId sd_amount sd_price User.email
         User.set_subscription].
    destruct Hbad as [Ha | [Hs | Hm]].
    - rewrite Ha. cbn [Js.or_num Js.truthy_num Z.eqb negb].
      now destruct (Js.or_str _ _).
    - rewrite Hs. reflexivity.
    - rewrite Hm. destruct (Js.or_str _ _); [|reflexivity].
      now destruct (Js.or_num _ _). }
  unfold handleSuccessfulPayment. rewrite Hnone. cbn [fst].
  exists (save u' st), u', (match User.subscription u' with
                            | Some s => s
                            | None => Subscription.empty
                            end).
  split; [reflexivity|]. split; [reflexivity|].
  split; [apply findOne_save; exact Hf|].
  split; reflexivity.
Qed.

Lemma paid_invoice_without_row_witness :
  let i := Stripe.mkInvoice "in_0" "cus_1" 1702000000 (Some "sub_1") 0
             (Some "usd") in
  let e := Sample.env Sample.t0 "K3" (Stripe.invoice_payment_succeeded i)
             None in
  exists st' u sub,
    handleWebhook Sample.cfg e Sample.signed (Sample.store (Some Sample.pending))
    = (st', Responded (json Received)) /\
    invoices st' = [] /\
    findOne "cus_1" (users st') = Some u /\
    User.subscription u = Some sub /\
    Subscription.status sub = Some "active".
Proof.
  intros i e.
  apply (paid_invoice_without_row Sample.cfg e Sample.signed
           (Sample.store (Some Sample.pending)) i
           (Sample.alice (Some Sample.pending)) eq_refl eq_refl eq_refl).
  left. reflexivity.
Defined.

(** ** Further properties of the status reconciler *)

(** X9. In every successful answer of the status endpoint the [isActive]
    flag agrees with the reported status: it is true exactly when the
    status is [active] or [trialing], so an [expired] answer is never
    active. *)
Theorem getStatus_flag_agrees_with_status
    (c : Config) (e : Env) (req : Request) (st : Store) (view : StatusView) :
  getSubscriptionStatus c e req st = json (StatusBody (Some view)) ->
  v_isActive view = isActiveStatus (v_status view) /\
  (v_status view = "expired" -> v_isActive view = false).
Proof.
  intro H.
  destruct (getSubscriptionStatus_success c e req st view H)
    as (uid & user & local & sid & r & _ & _ & _ & ->).
  unfold mergeStatus. cbn [v_isActive v_status].
  set (final := if Js.is_str _ "active" then "active" else Stripe.status r).
  destruct (isActiveStatus final && periodPassed e r) eqn:Hx.
  - split; [reflexivity | auto].
  - split; [reflexivity|]. now intros ->.
Qed.

Lemma getStatus_flag_agrees_with_status_witness :
  exists view,
    getSubscriptionStatus Sample.cfg
      (Sample.env Sample.t0 "K3" (Stripe.other_event "ping")
         (Some (Sample.remote "past_due" (Some 1600000000) false)))
      Sample.asAlice (Sample.store (Some Sample.activeLapsed))
    = json (StatusBody (Some view)) /\
    v_status view = "expired" /\ v_isActive view = false.
Proof.
  pose (e := Sample.env Sample.t0 "K3" (Stripe.other_event "ping")
               (Some (Sample.remote "past_due" (Some 1600000000) false))).
  exists (mergeStatus e Sample.activeLapsed
            (Sample.remote "past_due" (Some 1600000000) false)).
  split; [reflexivity|]. split; [reflexivity|].
  destruct (getStatus_flag_agrees_with_status Sample.cfg e Sample.asAlice
              (Sample.store (Some Sample.activeLapsed)) _ eq_refl) as [_ H].
  apply H. reflexivity.
Defined.

(** X10. The status and details endpoints can disagree on the same data:
    when the stored status is [active], the provider reports a status other
    than [active] or [trialing] and the provider's period end has not
    passed, the status endpoint answers [active] with [isActive = true]
    while the details endpoint answers the provider's status with
    [isActive = false]. *)
Theorem status_and_details_disagree
    (c : Config) (e : Env) (req : Request) (st : Store) (uid : Z)
    (user : User.t) (local : Subscription.t) (sid : string)
    (subscription : Stripe.subscription) :
  stripe c = true ->
  authenticated req = Some uid ->
  loadSubscription uid st = Some (user, local, sid) ->
  retrieve e sid = Some subscription ->
  Subscription.status local = Some "active" ->
  isActiveStatus (Stripe.status subscription) = false ->
  periodPassed e subscription = false ->
  exists view view' info,
    getSubscriptionStatus c e req st = json (StatusBody (Some view)) /\
    getSubscriptionDetails c e req st = json (DetailsBody view' info) /\
    v_status view = "active" /\ v_isActive view = true /\
    v_status view' = Stripe.status subscription /\ v_isActive view' = false.
Proof.
  intros Hc Ha Hl Hr Hs Hi Hp.
  rewrite (getSubscriptionStatus_found c e req st uid user local sid
             subscription Hc Ha Hl Hr).
  unfold getSubscriptionDetails. rewrite Hc, Ha. cbn [negb].
  rewrite Hl, Hr. eexists _, _, _.
  split; [reflexivity|]. split; [reflexivity|].
  unfold mergeStatus. cbn [v_status v_isActive]. rewrite Hs, Hp, Hi.
  repeat split; reflexivity.
Qed.

Lemma status_and_details_disagree_witness :
  let e := Sample.env Sample.t0 "K3" (Stripe.other_event "ping")
             (Some (Sample.remote "incomplete" (Some 1702000000) false)) in
  let st := Sample.store (Some Sample.activeLapsed) in
  exists view view' info,
    getSubscriptionStatus Sample.cfg e Sample.asAlice st
    = json (StatusBody (Some view)) /\
    getSubscriptionDetails Sample.cfg e Sample.asAlice st
    = json (DetailsBody view' info) /\
    v_status view = "active" /\ v_isActive view = true /\
    v_status view' = "incomplete" /\ v_isActive view' = false.
Proof.
  intros e st.
  apply (status_and_details_disagree Sample.cfg e Sample.asAlice st 1
           (Sample.alice (Some Sample.activeLapsed)) Sample.activeLapsed
           "sub_1" (Sample.remote "incomplete" (Some 1702000000) false));
    reflexivity.
Defined.

(** X11. When the provider record carries no period end, the details
    endpoint reports [NaN] remaining days and the tier [expired], whatever
    the status of the subscription. *)
Theorem details_without_period_end
    (c : Config) (e : Env) (req : Request) (st : Store) (uid : Z)
    (user : User.t) (local : Subscription.t) (sid : string)
    (subscription : Stripe.subscription) :
  stripe c = true ->
  authenticated req = Some uid ->
  loadSubscription uid st = Some (user, local, sid) ->
  retrieve e sid = Some subscription ->
  Stripe.current_period_end subscription = None ->
  exists view info,
    getSubscriptionDetails c e req st = json (DetailsBody view info) /\
    v_status view = Stripe.status subscription /\
    p_remainingDays info = None /\
    p_expiryDate info = None /\
    p_validityStatus info = "expired".
Proof.
  intros Hc Ha Hl Hr Hp.
  unfold getSubscriptionDetails. rewrite Hc, Ha. cbn [negb].
  rewrite Hl, Hr, Hp. eexists _, _. split; [reflexivity|].
  repeat split; reflexivity.
Qed.

Lemma details_without_period_end_witness :
  let e := Sample.env Sample.t0 "K3" (Stripe.other_event "ping")
             (Some (Sample.remote "active" None false)) in
  exists view info,
    getSubscriptionDetails Sample.cfg e Sample.asAlice
      (Sample.store (Some Sample.activeLapsed))
    = json (DetailsBody view info) /\
    v_status view = "active" /\
    p_remainingDays info = None /\
    p_expiryDate info = None /\
    p_validityStatus info = "expired".
Proof.
  intro e.
  apply (details_without_period_end Sample.cfg e Sample.asAlice _ 1
           (Sample.alice (Some Sample.activeLapsed)) Sample.activeLapsed
           "sub_1" (Sample.remote "active" None false));
    reflexivity.
Defined.

Lemma findByPk_In (uid : Z) (st : Store) (user : User.t) :
  findByPk uid (users st) = Some user ->
  In user (users st) /\ User.id user = uid.
Proof.
  unfold findByPk. intro H. apply find_some in H as [Hin Hid].
  split; [exact Hin | now apply Z.eqb_eq].
Qed.

(** X12. A paid invoice is visible to the next status read: after a verified
    [invoice.payment_succeeded] event for a user with a subscription record,
    the status endpoint reports the event's period end (in seconds) and the
    delivery time as payment date, and reports [active] with
    [isActive = true] unless the provider's own period end has passed,
    whatever status the provider reports. *)
Theorem paid_invoice_then_status
    (c : Config) (e1 e2 : Env) (hook req : Request) (st : Store)
    (i : Stripe.invoice) (uid : Z) (user : User.t) (old : Subscription.t)
    (sid : string) (r : Stripe.subscription) :
  stripe c = true ->
  constructEvent e1 (req_body hook) (stripe_signature hook)
    (STRIPE_WEBHOOK_SECRET c) = Some (Stripe.invoice_payment_succeeded i) ->
  findOne (Stripe.inv_customer i) (users st) = Some user ->
  findByPk uid (users st) = Some user ->
  User.subscription user = Some old ->
  Subscription.id old = Some sid ->
  sid <> EmptyString ->
  authenticated req = Some uid ->
  retrieve e2 sid = Some r ->
  exists view,
    getSubscriptionStatus c e2 req (fst (handleWebhook c e1 hook st))
    = json (StatusBody (Some view)) /\
    v_currentPeriodEnd view = Some (Stripe.period_end i) /\
    v_paymentDate view = Some (now e1) /\
    (periodPassed e2 r = false ->
     v_status view = "active" /\ v_isActive view = true).
Proof.
  intros Hc Hv Hf Hpk Hsub Hid Hne Ha Hr.
  destruct (findByPk_In uid st user Hpk) as [Hin Huid].
  rewrite (handleWebhook_verified c e1 hook st _ Hc Hv).
  cbn [dispatch fst]. unfold case_invoice_payment_succeeded. rewrite Hf.
  set (u' := User.set_subscription user _).
  set (st1 := fst (handleSuccessfulPayment e1 _ u' (save u' st))).
  assert (Hl : loadSubscription uid st1
               = Some (u', Subscription.mk (Some sid) (Some "active")
                             (Some (Stripe.period_end i * 1000))
                             (Some (now e1)) (Subscription.interval old)
                             (Subscription.cancelAtPeriodEnd old), sid)).
  { unfold loadSubscription, st1. rewrite handleSuccessfulPayment_users.
    rewrite <- Huid. unfold u'. rewrite (findByPk_save user _ st Hin).
    cbn [User.subscription User.set_subscription Subscription.id].
    rewrite Hsub. cbn [Subscription.spread]. rewrite Hid.
    apply String.eqb_neq in Hne. now rewrite Hne. }
  rewrite (getSubscriptionStatus_found c e2 req st1 uid _ _ sid r Hc Ha Hl Hr).
  eexists. split; [reflexivity|].
  unfold mergeStatus.
  cbn [v_currentPeriodEnd v_paymentDate v_status v_isActive
       Subscription.currentPeriodEnd Subscription.paymentDate
       Subscription.status Js.is_str].
  split; [now rewrite Z.div_mul|]. split; [reflexivity|].
  intros ->. split; reflexivity.
Qed.

Lemma paid_invoice_then_status_witness :
  let ev := Stripe.invoice_payment_succeeded Sample.paidInvoice in
  let e1 := Sample.env Sample.t0 "K3J7Q2M9X" ev None in
  let e2 := Sample.env (Sample.t0 + 60000) "K3" ev
              (Some (Sample.remote "incomplete" (Some 1702000000) false)) in
  exists view,
    getSubscriptionStatus Sample.cfg e2 Sample.asAlice
      (fst (handleWebhook Sample.cfg e1 Sample.signed
              (Sample.store (Some Sample.pending))))
    = json (StatusBody (Some view)) /\
    v_currentPeriodEnd view = Some 1702000000 /\
    v_status view = "active" /\ v_isActive view = true.
Proof.
  intros ev e1 e2.
  destruct (paid_invoice_then_status Sample.cfg e1 e2 Sample.signed
              Sample.asAlice (Sample.store (Some Sample.pending))
              Sample.paidInvoice 1 (Sample.alice (Some Sample.pending))
              Sample.pending "sub_1"
              (Sample.remote "incomplete" (Some 1702000000) false)
              eq_refl eq_refl eq_refl eq_refl eq_refl eq_refl
              ltac:(discriminate) eq_refl eq_refl)
    as (view & Hresp & Hp & _ & Hs).
  exists view. split; [exact Hresp|]. split; [exact Hp|].
  apply Hs. reflexivity.
Defined.

(** ** Further properties of force-activate *)

(** X13. Force-activate writes only when it answers 200: an unconfigured
    provider client (500), an unauthenticated caller (401), a missing
    subscription record (404) and a failed provider lookup (500) all leave
    the tables unchanged and issue no provider update. *)
Theorem forceActivate_failure_changes_nothing
    (c : Config) (e : Env) (req : Request) (st : Store) :
  statusCode (act_response (forceActivateSubscription c e req st)) <> 200 ->
  act_store (forceActivateSubscription c e req st) = st /\
  act_updates (forceActivateSubscription c e req st) = [].
Proof.
  unfold forceActivateSubscription.
  destruct (negb (stripe c)); [auto|].
  destruct (authenticated req) as [uid|]; [|auto].
  destruct (loadSubscription uid st) as [[[user local] sid]|]; [|auto].
  destruct (retrieve e sid) as [r|]; [|auto].
  cbn [act_response statusCode json]. intro H. now contradiction H.
Qed.

Lemma forceActivate_failure_changes_nothing_witness :
  let e := Sample.env Sample.t0 "K3" (Stripe.other_event "ping") None in
  act_store (forceActivateSubscription Sample.cfg e Sample.asAlice
               (Sample.store (Some Sample.pending)))
  = Sample.store (Some Sample.pending) /\
  act_updates (forceActivateSubscription Sample.cfg e Sample.asAlice
                 (Sample.store (Some Sample.pending))) = [].
Proof.
  intro e. apply forceActivate_failure_changes_nothing.
  vm_compute. discriminate.
Defined.

(** X14. A force-activate call does not change what the status endpoint
    reports.  When the call succeeds it answers 200 with status [active],
    but the status endpoint afterwards still merges the record that was
    stored before the call with the provider's record: when that stored
    status is not [active] and the provider's status is neither [active]
    nor [trialing], it reports the provider's status with
    [isActive = false]. *)
Theorem forceActivate_then_status
    (c : Config) (e1 e2 : Env) (req : Request) (st : Store) (uid : Z)
    (user : User.t) (local : Subscription.t) (sid : string)
    (r1 r2 : Stripe.subscription) :
  stripe c = true ->
  authenticated req = Some uid ->
  loadSubscription uid st = Some (user, local, sid) ->
  retrieve e1 sid = Some r1 ->
  retrieve e2 sid = Some r2 ->
  let a := forceActivateSubscription c e1 req st in
  statusCode (act_response a) = 200 /\
  exists view,
    getSubscriptionStatus c e2 req (act_store a)
    = json (StatusBody (Some view)) /\
    view = mergeStatus e2 local r2 /\
    (Subscription.status local <> Some "active" ->
     Stripe.status r2 <> "active" -> Stripe.status r2 <> "trialing" ->
     v_status view = Stripe.status r2 /\ v_isActive view = false).
Proof.
  intros Hc Ha Hl Hr1 Hr2 a. split.
  - unfold a, forceActivateSubscription. rewrite Hc, Ha. cbn [negb].
    rewrite Hl, Hr1. reflexivity.
  - unfold a. rewrite forceActivateSubscription_store.
    exists (mergeStatus e2 local r2).
    split; [now apply (getSubscriptionStatus_found c e2 req st uid user local sid)|].
    split; [reflexivity|]. intros Hn H1 H2.
    unfold mergeStatus. cbn [v_status v_isActive].
    assert (Hd : Js.is_str (Subscription.status local) "active" = false).
    { unfold Js.is_str. destruct (Subscription.status local) as [d|];
        [|reflexivity].
      destruct (String.eqb_spec d "active") as [->|]; [congruence|reflexivity]. }
    rewrite Hd. unfold isActiveStatus.
    apply String.eqb_neq in H1, H2. rewrite H1, H2. split; reflexivity.
Qed.

Lemma forceActivate_then_status_witness :
  let e1 := Sample.env Sample.t0 "K3" (Stripe.other_event "ping")
              (Some (Sample.remote "canceled" (Some 1702000000) true)) in
  let e2 := Sample.env (Sample.t0 + 60000) "K3" (Stripe.other_event "ping")
              (Some (Sample.remote "canceled" (Some 1702000000) true)) in
  let a := forceActivateSubscription Sample.cfg e1 Sample.asAlice
             (Sample.store (Some Sample.pending)) in
  statusCode (act_response a) = 200 /\
  exists view,
    getSubscriptionStatus Sample.cfg e2 Sample.asAlice (act_store a)
    = json (StatusBody (Some view)) /\
    v_status view = "canceled" /\ v_isActive view = false.
Proof.
  intros e1 e2 a.
  destruct (forceActivate_then_status Sample.cfg e1 e2 Sample.asAlice
              (Sample.store (Some Sample.pending)) 1
              (Sample.alice (Some Sample.pending)) Sample.pending "sub_1"
              (Sample.remote "canceled" (Some 1702000000) true)
              (Sample.remote "canceled" (Some 1702000000) true)
              eq_refl eq_refl eq_refl eq_refl eq_refl)
    as (Hcode & view & Hresp & _ & Hs).
  split; [exact Hcode|]. exists view. split; [exact Hresp|].
  apply Hs; discriminate.
Defined.

(** ** Cancel and resume *)

Import Endpoints.

Lemma storedSubscription_save (uid : Z) (st : Store) (user : User.t)
    (s : Subscription.t) :
  findByPk uid (users st) = Some user ->
  storedSubscription uid (save (User.set_subscription user s) st) = Some s.
Proof.
  intro H. destruct (findByPk_In uid st user H) as [Hin <-].
  unfold storedSubscription. now rewrite (findByPk_save user s st Hin).
Qed.

(** X15. The cancel endpoint writes to the tables only when it answers that
    the subscription will be cancelled at the end of the billing period:
    every error answer, the already-canceled answer and the
    already-set-to-cancel answer leave the tables unchanged. *)
Theorem cancel_writes_only_on_success
    (c : Config) (e : Env) (sdk : Sdk) (req : Request) (st : Store) :
  fst (cancelSubscription c e sdk req st) = st \/
  exists id status flag period,
    snd (cancelSubscription c e sdk req st)
    = mkReply 200
        (CancelSummary
           "Subscription will be cancelled at the end of the current billing period"
           id status flag period).
Proof.
  unfold cancelSubscription.
  destruct (negb (stripe c)); [now left|].
  destruct (authenticated req) as [uid|]; [|now left].
  destruct (loadSubscription uid st) as [[[user local] sid]|]; [|now left].
  destruct (retrieve e sid) as [cur|]; [|now left].
  destruct (String.eqb (Stripe.status cur) "canceled"); [now left|].
  destruct (Stripe.cancel_at_period_end cur); [now left|].
  destruct (update_cancel_at_period_end sdk sid true) as [sub|m].
  - right. eexists _, _, _, _. reflexivity.
  - destruct (includes _ m); now left.
Qed.

(** X16. A successful cancel stores the status and the cancel flag that the
    provider's update returned, and keeps the stored period end, payment
    date, interval and external id, so the user keeps access until the
    period ends; no invoice row is touched. *)
Theorem cancel_keeps_period
    (c : Config) (e : Env) (sdk : Sdk) (req : Request) (st : Store) (uid : Z)
    (user : User.t) (local : Subscription.t) (sid : string)
    (cur sub : Stripe.subscription) :
  stripe c = true ->
  authenticated req = Some uid ->
  loadSubscription uid st = Some (user, local, sid) ->
  retrieve e sid = Some cur ->
  Stripe.status cur <> "canceled" ->
  Stripe.cancel_at_period_end cur = false ->
  update_cancel_at_period_end sdk sid true = inl sub ->
  let st' := fst (cancelSubscription c e sdk req st) in
  code (snd (cancelSubscription c e sdk req st)) = 200 /\
  invoices st' = invoices st /\
  storedSubscription uid st'
  = Some (Subscription.mk (Subscription.id local) (Some (Stripe.status sub))
            (Subscription.currentPeriodEnd local)
            (Subscription.paymentDate local) (Subscription.interval local)
            (Some (Stripe.cancel_at_period_end sub))).
Proof.
  intros Hc Ha Hl Hr Hs Hf Hu st'. unfold st', cancelSubscription.
  rewrite Hc, Ha. cbn [negb]. rewrite Hl, Hr.
  apply String.eqb_neq in Hs. rewrite Hs, Hf, Hu. cbn [fst snd code].
  destruct (loadSubscription_Some _ _ _ _ _ Hl) as (Hpk & Hsub & _ & _).
  split; [reflexivity|]. split; [reflexivity|].
  unfold writeCancel. rewrite Hsub. cbn [Subscription.spread].
  now apply storedSubscription_save.
Qed.

Lemma cancel_keeps_period_witness :
  let e := Sample.env Sample.t0 "K3" (Stripe.other_event "ping")
             (Some (Sample.remote "active" (Some 1702000000) false)) in
  let sdk := Sample2.quiet (Sample.remote "active" (Some 1702000000) true) in
  let st := Sample.store (Some Sample.activeLapsed) in
  storedSubscription 1 (fst (cancelSubscription Sample.cfg e sdk Sample.asAlice st))
  = Some (Subscription.mk (Some "sub_1") (Some "active") (Some 1600000000000)
            (Some 1597000000000) (Some "month") (Some true)).
Proof.
  intros e sdk st.
  apply (cancel_keeps_period Sample.cfg e sdk Sample.asAlice st 1
           (Sample.alice (Some Sample.activeLapsed)) Sample.activeLapsed
           "sub_1" (Sample.remote "active" (Some 1702000000) false)
           (Sample.remote "active" (Some 1702000000) true));
    try reflexivity; discriminate.
Defined.

(** X17. The resume endpoint never writes to the tables.  It answers 200
    "Subscription resumed" only after the provider, which showed the
    subscription as cancelling, accepted the update; the stored record is
    then still the one from before the call, its [cancelAtPeriodEnd]
    included, because the flag is cleared inside the object held by
    [user.subscription] without assigning the attribute. *)
Theorem resume_writes_nothing
    (c : Config) (e : Env) (sdk : Sdk) (req : Request) (st : Store) :
  let r := resumeSubscription c e sdk req st in
  fst r = st /\
  (snd r = mkReply 200 (ResumeSummary "Subscription resumed") ->
   exists uid user local sid cur sub,
     authenticated req = Some uid /\
     loadSubscription uid st = Some (user, local, sid) /\
     retrieve e sid = Some cur /\
     Stripe.cancel_at_period_end cur = true /\
     update_cancel_at_period_end sdk sid false = inl sub /\
     storedSubscription uid (fst r) = Some local).
Proof.
  cbv zeta. unfold resumeSubscription.
  destruct (negb (stripe c)); [split; [reflexivity | discriminate]|].
  destruct (authenticated req) as [uid|] eqn:Ha;
    [|split; [reflexivity | discriminate]].
  destruct (loadSubscription uid st) as [[[user local] sid]|] eqn:Hl;
    [|split; [reflexivity | discriminate]].
  destruct (retrieve e sid) as [cur|] eqn:Hr;
    [|split; [reflexivity | discriminate]].
  destruct (Stripe.cancel_at_period_end cur) eqn:Hf; cbn [negb];
    [|split; [reflexivity | discriminate]].
  destruct (update_cancel_at_period_end sdk sid false) as [sub|m] eqn:Hu;
    [|split; [reflexivity | discriminate]].
  cbn [fst snd]. rewrite saveInstance_inPlace. split; [reflexivity|].
  intros _. exists uid, user, local, sid, cur, sub.
  destruct (loadSubscription_Some _ _ _ _ _ Hl) as (Hpk & Hs & _).
  repeat (split; [assumption || reflexivity|]).
  unfold storedSubscription. now rewrite Hpk.
Qed.

Lemma resume_writes_nothing_witness :
  let e := Sample.env Sample.t0 "K3" (Stripe.other_event "ping")
             (Some (Sample.remote "active" (Some 1702000000) true)) in
  let sdk := Sample2.quiet (Sample.remote "active" (Some 1702000000) false) in
  let st := Sample.store (Some Sample.pending) in
  let r := resumeSubscription Sample.cfg e sdk Sample.asAlice st in
  snd r = mkReply 200 (ResumeSummary "Subscription resumed") /\
  exists local,
    storedSubscription 1 (fst r) = Some local /\
    Subscription.cancelAtPeriodEnd local = Some true.
Proof.
  intros e sdk st r. split; [reflexivity|].
  destruct (resume_writes_nothing Sample.cfg e sdk Sample.asAlice st)
    as [Hst _].
  fold r in Hst. rewrite Hst. exists Sample.pending. split; reflexivity.
Defined.

(** X18. Cancel followed by resume leaves the stored cancel flag as the
    cancel wrote it: when both provider updates succeed, the resume answers
    200 "Subscription resumed", yet the stored subscription is still the
    record the cancel stored, with the status and the [cancelAtPeriodEnd]
    that the cancel's update returned. *)
Theorem cancel_then_resume
    (c : Config) (e1 e2 : Env) (sdk : Sdk) (req : Request) (st : Store)
    (uid : Z) (user : User.t) (local : Subscription.t) (sid : string)
    (cur1 cur2 sub1 sub2 : Stripe.subscription) :
  stripe c = true ->
  authenticated req = Some uid ->
  loadSubscription uid st = Some (user, local, sid) ->
  retrieve e1 sid = Some cur1 ->
  Stripe.status cur1 <> "canceled" ->
  Stripe.cancel_at_period_end cur1 = false ->
  update_cancel_at_period_end sdk sid true = inl sub1 ->
  retrieve e2 sid = Some cur2 ->
  Stripe.cancel_at_period_end cur2 = true ->
  update_cancel_at_period_end sdk sid false = inl sub2 ->
  let st1 := fst (cancelSubscription c e1 sdk req st) in
  let r2 := resumeSubscription c e2 sdk req st1 in
  snd r2 = mkReply 200 (ResumeSummary "Subscription resumed") /\
  storedSubscription uid (fst r2)
  = Some (Subscription.mk (Subscription.id local) (Some (Stripe.status sub1))
            (Subscription.currentPeriodEnd local)
            (Subscription.paymentDate local) (Subscription.interval local)
            (Some (Stripe.cancel_at_period_end sub1))).
Proof.
  intros Hc Ha Hl Hr1 Hs Hf Hu1 Hr2 Hf2 Hu2 st1 r2.
  destruct (loadSubscription_Some _ _ _ _ _ Hl) as (Hpk & Hsub & Hid & Hne).
  assert (E1 : st1 = save (writeCancel user (Stripe.status sub1)
                             (Stripe.cancel_at_period_end sub1)) st).
  { unfold st1, cancelSubscription. rewrite Hc, Ha. cbn [negb].
    rewrite Hl, Hr1. apply String.eqb_neq in Hs. now rewrite Hs, Hf, Hu1. }
  unfold writeCancel in E1. rewrite Hsub in E1. cbn [Subscription.spread] in E1.
  set (s1 := Subscription.mk (Subscription.id local) (Some (Stripe.status sub1))
               (Subscription.currentPeriodEnd local)
               (Subscription.paymentDate local) (Subscription.interval local)
               (Some (Stripe.cancel_at_period_end sub1))) in *.
  assert (Hl1 : loadSubscription uid st1
                = Some (User.set_subscription user s1, s1, sid)).
  { rewrite E1. now apply (loadSubscription_save uid st user local). }
  unfold r2, resumeSubscription. rewrite Hc, Ha. cbn [negb].
  rewrite Hl1, Hr2, Hf2, Hu2. cbn [negb fst snd].
  rewrite saveInstance_inPlace. split; [reflexivity|].
  rewrite E1. now apply storedSubscription_save.
Qed.

Lemma cancel_then_resume_witness :
  let e1 := Sample.env Sample.t0 "K3" (Stripe.other_event "ping")
              (Some (Sample.remote "active" (Some 1702000000) false)) in
  let e2 := Sample.env (Sample.t0 + 60000) "K3" (Stripe.other_event "ping")
              (Some (Sample.remote "active" (Some 1702000000) true)) in
  let sdk := Sample2.quiet (Sample.remote "active" (Some 1702000000) true) in
  let st := Sample.store (Some Sample.activeLapsed) in
  let r2 := resumeSubscription Sample.cfg e2 sdk Sample.asAlice
              (fst (cancelSubscription Sample.cfg e1 sdk Sample.asAlice st)) in
  snd r2 = mkReply 200 (ResumeSummary "Subscription resumed") /\
  storedSubscription 1 (fst r2)
  = Some (Subscription.mk (Some "sub_1") (Some "active") (Some 1600000000000)
            (Some 1597000000000) (Some "month") (Some true)).
Proof.
  intros e1 e2 sdk st r2.
  apply (cancel_then_resume Sample.cfg e1 e2 sdk Sample.asAlice st 1
           (Sample.alice (Some Sample.activeLapsed)) Sample.activeLapsed
           "sub_1" (Sample.remote "active" (Some 1702000000) false)
           (Sample.remote "active" (Some 1702000000) true)
           (Sample.remote "active" (Some 1702000000) true)
           (Sample.remote "active" (Some 1702000000) true));
    try reflexivity; discriminate.
Defined.

(** ** Confirm and fix-status *)

Ltac break_match :=
  match goal with
  | |- context [match ?x with _ => _ end] => destruct x eqn:?
  end.



(** X20. The fix-status endpoint writes only when it answers 200: every
    400, 401, 404 and 500 answer, including a provider call that fails
    part-way, leaves the tables unchanged. *)
Theorem fix_failure_changes_nothing
    (c : Config) (e : Env) (sdk : Sdk) (req : Request) (st : Store) :
  code (snd (fixSubscriptionStatus c e sdk req st)) <> 200 ->
  fst (fixSubscriptionStatus c e sdk req st) = st.
Proof.
  unfold fixSubscriptionStatus, fixWithoutCharge, fixByIntent.
  repeat break_match; cbn [fst snd code]; intro H;
    try reflexivity; now contradiction H.
Qed.

Lemma fix_failure_changes_nothing_witness :
  let e := Sample.env Sample.t0 "K3" (Stripe.other_event "ping") None in
  let sdk := Sample2.sdk (inr "unused")
               (Some (Sample.remote "incomplete" (Some 1702000000) false, None))
               None (Some [Sample2.failedCharge]) (Some []) in
  fixSubscriptionStatus Sample.cfg e sdk Sample.asAlice
    (Sample.store (Some Sample.pending))
  = (Sample.store (Some Sample.pending),
     mkReply 400
       (CannotActivate
          "Subscription cannot be activated - no successful payment found"
          "incomplete")).
Proof.
  intros e sdk.
  pose proof (fix_failure_changes_nothing Sample.cfg e sdk Sample.asAlice
                (Sample.store (Some Sample.pending))) as H.
  assert (Hc : code (snd (fixSubscriptionStatus Sample.cfg e sdk Sample.asAlice
                            (Sample.store (Some Sample.pending)))) <> 200)
    by (vm_compute; discriminate).
  specialize (H Hc).
  rewrite (surjective_pairing (fixSubscriptionStatus _ _ _ _ _)), H.
  reflexivity.
Defined.

(** X21. The fix-status endpoint never answers 200 without evidence from
    the provider: a succeeded charge that names the subscription (by
    metadata, by its subscription field or in its description), or an
    [incomplete] subscription whose latest payment intent succeeded with a
    payment method, or a subscription the provider reports as [active] or
    [trialing], or a succeeded payment intent that names the subscription. *)
Theorem fix_needs_evidence
    (c : Config) (e : Env) (sdk : Sdk) (req : Request) (st : Store) :
  code (snd (fixSubscriptionStatus c e sdk req st)) = 200 ->
  exists uid user local sid sub latest,
    authenticated req = Some uid /\
    loadSubscription uid st = Some (user, local, sid) /\
    retrieve_expanded sdk sid = Some (sub, latest) /\
    ((exists charges ch,
        charges_list sdk (User.stripeCustomerId user) = Some charges /\
        In ch charges /\ ch_status ch = "succeeded" /\
        chargeMatches (Stripe.id sub) ch = true) \/
     (Stripe.status sub = "incomplete" /\
      exists intent method,
        latest = Some intent /\ li_status intent = "succeeded" /\
        li_payment_method intent = Some method /\ method <> EmptyString) \/
     isActiveStatus (Stripe.status sub) = true \/
     (exists intents pi,
        paymentIntents_list sdk (User.stripeCustomerId user) = Some intents /\
        In pi intents /\ pi_status pi = "succeeded" /\
        intentMatches (Stripe.id sub) pi = true)).
Proof.
  unfold fixSubscriptionStatus.
  destruct (negb (stripe c)); [discriminate|].
  destruct (authenticated req) as [uid|] eqn:Ha; [|discriminate].
  destruct (loadSubscription uid st) as [[[user local] sid]|] eqn:Hl;
    [|discriminate].
  destruct (retrieve_expanded sdk sid) as [[sub latest]|] eqn:Hr;
    [|discriminate].
  destruct (charges_list sdk _) as [charges|] eqn:Hch; [|discriminate].
  intro H. exists uid, user, local, sid, sub, latest.
  split; [auto|]. split; [auto|]. split; [auto|].
  destruct (find (chargeMatches (Stripe.id sub)) charges) as [ch|] eqn:Hfind.
  { left. apply find_some in Hfind as [Hin Hm]. exists charges, ch.
    repeat split; auto. unfold chargeMatches in Hm.
    apply andb_true_iff in Hm as [Hs _]. now apply String.eqb_eq. }
  right. unfold fixWithoutCharge in H.
  assert (Hrest :
            code (snd (if isActiveStatus (Stripe.status sub)
                       then (saveInstance (inPlace (syncFrom e user local sub)) st,
                             mkReply 200
                               (Fixed "Subscription is already active"
                                  (summaryOf sub true)))
                       else fixByIntent e sdk st user local sub)) = 200 ->
            isActiveStatus (Stripe.status sub) = true \/
            (exists intents pi,
               paymentIntents_list sdk (User.stripeCustomerId user)
               = Some intents /\
               In pi intents /\ pi_status pi = "succeeded" /\
               intentMatches (Stripe.id sub) pi = true)).
  { destruct (isActiveStatus (Stripe.status sub)); [now left|].
    unfold fixByIntent. right.
    destruct (paymentIntents_list sdk _) as [intents|]; [|discriminate].
    destruct (find (intentMatches (Stripe.id sub)) intents) as [pi|] eqn:Hpi;
      [|discriminate].
    apply find_some in Hpi as [Hin Hm]. exists intents, pi.
    repeat split; auto. unfold intentMatches in Hm.
    apply andb_true_iff in Hm as [Hs _]. now apply String.eqb_eq. }
  destruct (String.eqb_spec (Stripe.status sub) "incomplete") as [Hinc|];
    [|right; now apply Hrest].
  destruct latest as [intent|]; [|right; now apply Hrest].
  destruct (String.eqb_spec (li_status intent) "succeeded") as [Hs|];
    cbn [andb] in H; [|right; now apply Hrest].
  destruct (Js.truthy_str (li_payment_method intent)) eqn:Hpm;
    [|right; now apply Hrest].
  left. split; [exact Hinc|].
  unfold Js.truthy_str in Hpm.
  destruct (li_payment_method intent) as [m|] eqn:Hm; [|discriminate].
  exists intent, m. split; [reflexivity|]. split; [exact Hs|].
  split; [exact Hm|].
  apply negb_true_iff in Hpm. now apply String.eqb_neq.
Qed.

Lemma fix_needs_evidence_witness :
  let e := Sample.env Sample.t0 "K3" (Stripe.other_event "ping") None in
  let sdk := Sample2.sdk (inr "unused")
               (Some (Sample.remote "past_due" (Some 1702000000) false, None))
               (Some (Sample.remote "past_due" (Some 1702000000) false))
               (Some [Sample2.failedCharge; Sample2.paidCharge]) None in
  exists charges ch,
    charges_list sdk (Some "cus_1") = Some charges /\
    In ch charges /\ ch_status ch = "succeeded" /\
    chargeMatches "sub_1" ch = true.
Proof.
  intros e sdk.
  destruct (fix_needs_evidence Sample.cfg e sdk Sample.asAlice
              (Sample.store (Some Sample.pending)) eq_refl)
    as (uid & user & local & sid & sub & latest & Ha & Hl & Hr & Hev).
  injection Ha as <-. vm_compute in Hl. injection Hl as <- <- <-.
  vm_compute in Hr. injection Hr as <- <-.
  destruct Hev as [H | [[H _] | [H | (intents & pi & H & _)]]].
  - exact H.
  - discriminate H.
  - discriminate H.
  - discriminate H.
Defined.

Lemma find_is_some {A : Type} (f : A -> bool) (l : list A) (x : A) :
  In x l -> f x = true -> exists y, find f l = Some y.
Proof.
  intros Hin Hf. destruct (find f l) as [y|] eqn:H; [now exists y|].
  pose proof (find_none f l H x Hin). congruence.
Qed.

Lemma find_is_none {A : Type} (f : A -> bool) (l : list A) :
  (forall x, In x l -> f x = false) -> find f l = None.
Proof.
  intro H. destruct (find f l) as [y|] eqn:Hy; [|reflexivity].
  apply find_some in Hy as [Hin Hf]. rewrite (H y Hin) in Hf. discriminate.
Qed.

(** X22. When the provider lists a succeeded charge that names the
    subscription and the subscription can be fetched again, fix-status
    answers 200 whatever the provider says about the subscription: with the
    provider's status if that is [active] or [trialing], and with "activated"
    and status [active] for every other status (even [canceled] or
    [past_due]).  The stored record is not written: the new values are put
    into the object held by [user.subscription] without assigning the
    attribute. *)
Theorem fix_with_charge_answers_activated
    (c : Config) (e : Env) (sdk : Sdk) (req : Request) (st : Store) (uid : Z)
    (user : User.t) (local : Subscription.t) (sid : string)
    (sub : Stripe.subscription) (latest : option LatestIntent)
    (charges : list Charge) (ch : Charge) (cur : Stripe.subscription) :
  stripe c = true ->
  authenticated req = Some uid ->
  loadSubscription uid st = Some (user, local, sid) ->
  retrieve_expanded sdk sid = Some (sub, latest) ->
  charges_list sdk (User.stripeCustomerId user) = Some charges ->
  In ch charges ->
  chargeMatches (Stripe.id sub) ch = true ->
  retrieve_again sdk (Stripe.id sub) = Some cur ->
  let r := fixSubscriptionStatus c e sdk req st in
  fst r = st /\
  storedSubscription uid (fst r) = Some local /\
  snd r
  = mkReply 200
      (if isActiveStatus (Stripe.status cur)
       then Fixed "Subscription is already active after successful charge"
              (mkSummary (Stripe.id cur) (Stripe.status cur)
                 (Stripe.current_period_end cur) true)
       else Activated "Subscription activated - payment was successful"
              (Stripe.id sub) "active"
              (periodEndOr e (Stripe.current_period_end cur)
                 (Js.or_lit (Stripe.plan_interval cur) "month"))).
Proof.
  intros Hc Ha Hl Hr Hch Hin Hm Hcur r.
  assert (E : r = (st, mkReply 200
                     (if isActiveStatus (Stripe.status cur)
                      then Fixed "Subscription is already active after successful charge"
                             (mkSummary (Stripe.id cur) (Stripe.status cur)
                                (Stripe.current_period_end cur) true)
                      else Activated "Subscription activated - payment was successful"
                             (Stripe.id sub) "active"
                             (periodEndOr e (Stripe.current_period_end cur)
                                (Js.or_lit (Stripe.plan_interval cur) "month"))))).
  { unfold r, fixSubscriptionStatus. rewrite Hc, Ha. cbn [negb].
    rewrite Hl, Hr, Hch.
    destruct (find_is_some _ _ _ Hin Hm) as [ch' ->]. rewrite Hcur.
    destruct (isActiveStatus (Stripe.status cur)); reflexivity. }
  rewrite E. cbn [fst snd]. split; [reflexivity|]. split; [|reflexivity].
  destruct (loadSubscription_Some _ _ _ _ _ Hl) as (Hpk & Hs & _).
  unfold storedSubscription. now rewrite Hpk.
Qed.

Lemma fix_with_charge_answers_activated_witness :
  let e := Sample.env Sample.t0 "K3" (Stripe.other_event "ping") None in
  let sdk := Sample2.sdk (inr "unused")
               (Some (Sample.remote "canceled" (Some 1702000000) false, None))
               (Some (Sample.remote "canceled" (Some 1702000000) false))
               (Some [Sample2.failedCharge; Sample2.paidCharge]) None in
  let r := fixSubscriptionStatus Sample.cfg e sdk Sample.asAlice
             (Sample.store (Some Sample.pending)) in
  storedSubscription 1 (fst r) = Some Sample.pending /\
  snd r = mkReply 200
            (Activated "Subscription activated - payment was successful"
               "sub_1" "active" 1702000000000).
Proof.
  intros e sdk r.
  destruct (fix_with_charge_answers_activated Sample.cfg e sdk Sample.asAlice
              (Sample.store (Some Sample.pending)) 1
              (Sample.alice (Some Sample.pending)) Sample.pending "sub_1"
              (Sample.remote "canceled" (Some 1702000000) false) None
              [Sample2.failedCharge; Sample2.paidCharge] Sample2.paidCharge
              (Sample.remote "canceled" (Some 1702000000) false)
              eq_refl eq_refl eq_refl eq_refl eq_refl
              (or_intror (or_introl eq_refl)) eq_refl eq_refl)
    as (_ & Hs & Hr).
  split; [exact Hs | exact Hr].
Defined.

(** X23. When no charge matches, the latest invoice has no payment intent
    and the provider does not report the subscription as [active] or
    [trialing], a succeeded payment intent that names the subscription makes
    fix-status answer 200 "Subscription fixed" with status [active], the
    plan interval ([month] when missing) and a validity of 365 days for a
    yearly plan and 30 days otherwise; the stored record is not written. *)
Theorem fix_by_intent_answers_fixed
    (c : Config) (e : Env) (sdk : Sdk) (req : Request) (st : Store) (uid : Z)
    (user : User.t) (local : Subscription.t) (sid : string)
    (sub : Stripe.subscription) (charges : list Charge)
    (intents : list Intent) (pi : Intent) (details : Stripe.subscription) :
  stripe c = true ->
  authenticated req = Some uid ->
  loadSubscription uid st = Some (user, local, sid) ->
  retrieve_expanded sdk sid = Some (sub, None) ->
  charges_list sdk (User.stripeCustomerId user) = Some charges ->
  (forall ch, In ch charges -> chargeMatches (Stripe.id sub) ch = false) ->
  isActiveStatus (Stripe.status sub) = false ->
  paymentIntents_list sdk (User.stripeCustomerId user) = Some intents ->
  In pi intents ->
  intentMatches (Stripe.id sub) pi = true ->
  retrieve_again sdk (Stripe.id sub) = Some details ->
  let r := fixSubscriptionStatus c e sdk req st in
  fst r = st /\
  storedSubscription uid (fst r) = Some local /\
  snd r
  = mkReply 200
      (FixedByIntent "Subscription fixed - payment was successful"
         (Stripe.id sub) "active"
         (Js.or_lit (Stripe.plan_interval details) "month")
         (if Js.is_str (Stripe.plan_interval details) "year"
          then 365 else 30)).
Proof.
  intros Hc Ha Hl Hr Hch Hnone Hact Hpi Hin Hm Hd r.
  assert (E : r = (st, mkReply 200
                     (FixedByIntent "Subscription fixed - payment was successful"
                        (Stripe.id sub) "active"
                        (Js.or_lit (Stripe.plan_interval details) "month")
                        (if Js.is_str (Stripe.plan_interval details) "year"
                         then 365 else 30)))).
  { unfold r, fixSubscriptionStatus. rewrite Hc, Ha. cbn [negb].
    rewrite Hl, Hr, Hch, (find_is_none _ _ Hnone).
    unfold fixWithoutCharge. rewrite Hact.
    assert (Hrest : fixByIntent e sdk st user local sub
                    = (st, mkReply 200
                             (FixedByIntent
                                "Subscription fixed - payment was successful"
                                (Stripe.id sub) "active"
                                (Js.or_lit (Stripe.plan_interval details) "month")
                                (if Js.is_str (Stripe.plan_interval details) "year"
                                 then 365 else 30)))).
    { unfold fixByIntent. rewrite Hpi.
      destruct (find_is_some _ _ _ Hin Hm) as [pi' ->]. rewrite Hd.
      rewrite saveInstance_inPlace, validityDays_or_lit. reflexivity. }
    destruct (String.eqb (Stripe.status sub) "incomplete"); exact Hrest. }
  rewrite E. cbn [fst snd]. split; [reflexivity|]. split; [|reflexivity].
  destruct (loadSubscription_Some _ _ _ _ _ Hl) as (Hpk & Hs & _).
  unfold storedSubscription. now rewrite Hpk.
Qed.

Lemma fix_by_intent_answers_fixed_witness :
  let e := Sample.env Sample.t0 "K3" (Stripe.other_event "ping") None in
  let sdk := Sample2.sdk (inr "unused")
               (Some (Sample.remote "incomplete" (Some 1702000000) false, None))
               (Some (Sample.remote "incomplete" (Some 1702000000) false))
               (Some [Sample2.failedCharge])
               (Some [mkIntent "succeeded" None
                        (Some "Subscription creation for sub_1")]) in
  let r := fixSubscriptionStatus Sample.cfg e sdk Sample.asAlice
             (Sample.store (Some Sample.pending)) in
  storedSubscription 1 (fst r) = Some Sample.pending /\
  snd r = mkReply 200
            (FixedByIntent "Subscription fixed - payment was successful"
               "sub_1" "active" "month" 30).
Proof.
  intros e sdk r.
  destruct (fix_by_intent_answers_fixed Sample.cfg e sdk Sample.asAlice
              (Sample.store (Some Sample.pending)) 1
              (Sample.alice (Some Sample.pending)) Sample.pending "sub_1"
              (Sample.remote "incomplete" (Some 1702000000) false)
              [Sample2.failedCharge]
              [mkIntent "succeeded" None (Some "Subscription creation for sub_1")]
              (mkIntent "succeeded" None (Some "Subscription creation for sub_1"))
              (Sample.remote "incomplete" (Some 1702000000) false)
              eq_refl eq_refl eq_refl eq_refl eq_refl)
    as (_ & Hs & Hr); try reflexivity.
  - intros ch [<-|[]]. reflexivity.
  - left. reflexivity.
  - split; [exact Hs | exact Hr].
Defined.

(** ** The debug endpoint *)

(** X24. For a user whose stored record has a period end, the debug endpoint
    reports [isExpired] exactly when that period end lies before the call, a
    positive [daysRemaining] exactly when it lies after the call (the count
    is not clamped, so it is zero or negative once expired), and
    [shouldBeActive] exactly when the stored status is [active] and the
    period end has not passed. *)
Theorem debug_report_is_consistent
    (e : Env) (req : Request) (st : Store) (uid : Z) (user : User.t)
    (s : Subscription.t) (p : Z) :
  authenticated req = Some uid ->
  findByPk uid (users st) = Some user ->
  User.subscription user = Some s ->
  Subscription.currentPeriodEnd s = Some p ->
  exists calc,
    debugSubscriptionStatus e req st
    = mkReply 200
        (DebugReport (User.id user) (User.email user) (Some s) calc (now e)) /\
    (isExpired calc = true <-> p < now e) /\
    (0 < daysRemaining calc <-> now e < p) /\
    (isExpired calc = true -> daysRemaining calc <= 0) /\
    (shouldBeActive calc = true <->
     Subscription.status s = Some "active" /\ now e <= p).
Proof.
  intros Ha Hpk Hs Hp. unfold debugSubscriptionStatus.
  rewrite Ha, Hpk, Hs. eexists. split; [reflexivity|].
  unfold calculate. rewrite Hp.
  cbn [isExpired daysRemaining shouldBeActive].
  pose proof (ceil_div_bounds (p - now e) day_ms eq_refl) as Hb.
  set (d := Js.ceil_div (p - now e) day_ms) in *.
  unfold day_ms in Hb. rewrite Z.gtb_ltb.
  destruct (Z.ltb_spec p (now e)) as [Hlt|Hge].
  - split; [tauto|]. split; [split; intro; lia|]. split; [intros _; lia|].
    rewrite andb_false_r. split; [discriminate | intros [_ H]; lia].
  - split; [split; [discriminate | intro; lia]|].
    split; [split; intro; lia|]. split; [discriminate|].
    rewrite andb_true_r. unfold Js.is_str.
    destruct (Subscription.status s) as [x|].
    + destruct (String.eqb_spec x "active") as [->|Hn].
      * tauto.
      * split; [discriminate | intros [H _]; congruence].
    + split; [discriminate | intros [H _]; discriminate].
Qed.

Lemma debug_report_is_consistent_witness :
  let e := Sample.env Sample.t0 "K3" (Stripe.other_event "ping") None in
  exists calc,
    debugSubscriptionStatus e Sample.asAlice
      (Sample.store (Some Sample.activeLapsed))
    = mkReply 200
        (DebugReport 1 (Some "alice@example.org") (Some Sample.activeLapsed)
           calc 1700000000000) /\
    isExpired calc = true /\ daysRemaining calc <= 0 /\
    shouldBeActive calc = false.
Proof.
  intro e.
  destruct (debug_report_is_consistent e Sample.asAlice
              (Sample.store (Some Sample.activeLapsed)) 1
              (Sample.alice (Some Sample.activeLapsed)) Sample.activeLapsed
              1600000000000 eq_refl eq_refl eq_refl eq_refl)
    as (calc & Hr & Hx & _ & Hd & Ha).
  exists calc. split; [exact Hr|].
  assert (Hexp : isExpired calc = true) by (apply Hx; reflexivity).
  split; [exact Hexp|]. split; [now apply Hd|].
  destruct (shouldBeActive calc) eqn:Hs; [|reflexivity].
  destruct Ha as [Ha _]. destruct (Ha eq_refl) as [_ Hle].
  exfalso. apply Hle. reflexivity.
Defined.

(** ** The invoice endpoints *)

Import InvoiceEndpoints.

(** X25. The invoice list of an authenticated caller holds exactly the
    Invoice rows whose [userId] is the caller's: every own row, and no row
    of another user. *)
Theorem getInvoices_only_own (req : Request) (st : Store) (uid : Z) :
  authenticated req = Some uid ->
  exists rows,
    getInvoices req st = mkReply 200 (InvoiceList rows) /\
    forall i, In i rows <-> In i (invoices st) /\ Invoice.userId i = uid.
Proof.
  intro Ha. unfold getInvoices. rewrite Ha. eexists. split; [reflexivity|].
  intro i. rewrite <- in_rev, filter_In, Z.eqb_eq. tauto.
Qed.

Lemma getInvoices_only_own_witness :
  exists rows,
    getInvoices Sample.asAlice Sample2.ledger = mkReply 200 (InvoiceList rows) /\
    ~ In (Sample2.row "INV-2-B" 2) rows /\
    In (Sample2.row "INV-3-C" 1) rows.
Proof.
  destruct (getInvoices_only_own Sample.asAlice Sample2.ledger 1 eq_refl)
    as (rows & Hr & H).
  exists rows. split; [exact Hr|]. split.
  - intro Hin. apply H in Hin as [_ Hu]. discriminate Hu.
  - apply H. split; [|reflexivity]. cbn. auto.
Defined.

(** X26. Looking an invoice up by id returns only a row of the caller: a
    200 answer carries a stored row with the requested [invoiceId] and the
    caller's [userId], and when every row with that id belongs to someone
    else the answer is 404, the same as for an id that does not exist. *)
Theorem getInvoiceById_only_own
    (req : Request) (id : string) (st : Store) (uid : Z) :
  authenticated req = Some uid ->
  (forall row,
     getInvoiceById req id st = mkReply 200 (InvoiceRow row) ->
     In row (invoices st) /\ Invoice.invoiceId row = id /\
     Invoice.userId row = uid) /\
  ((forall i, In i (invoices st) -> Invoice.invoiceId i = id ->
              Invoice.userId i <> uid) ->
   getInvoiceById req id st = mkReply 404 (InvoiceMessage "Invoice not found")).
Proof.
  intro Ha. unfold getInvoiceById. rewrite Ha. split.
  - intro row.
    destruct (find _ (invoices st)) as [inv|] eqn:Hf; [|discriminate].
    intro H. inversion H; subst inv.
    apply find_some in Hf as [Hin Hm]. apply andb_true_iff in Hm as [H1 H2].
    repeat split; [exact Hin | now apply String.eqb_eq | now apply Z.eqb_eq].
  - intro Hother. rewrite find_is_none; [reflexivity|].
    intros i Hin. apply andb_false_iff.
    destruct (String.eqb_spec (Invoice.invoiceId i) id) as [Hid|]; [|now left].
    right. apply Z.eqb_neq. now apply Hother.
Qed.

Lemma getInvoiceById_only_own_witness :
  getInvoiceById Sample.asAlice "INV-2-B" Sample2.ledger
  = mkReply 404 (InvoiceMessage "Invoice not found").
Proof.
  destruct (getInvoiceById_only_own Sample.asAlice "INV-2-B" Sample2.ledger 1
              eq_refl) as [_ H].
  apply H. intros i Hin Hid. cbn in Hin.
  destruct Hin as [<-|[<-|[<-|[]]]]; try discriminate Hid. discriminate.
Defined.

Lemma markSent_ids (e : Env) (inv : Invoice.t) (st : Store) :
  map Invoice.invoiceId (invoices (markSent e inv st))
  = map Invoice.invoiceId (invoices st).
Proof.
  unfold markSent. cbn [invoices]. rewrite map_map. apply map_ext.
  intro i. destruct (String.eqb_spec (Invoice.invoiceId i)
                       (Invoice.invoiceId inv)); [|reflexivity].
  cbn. congruence.
Qed.

(** X27. Resending an invoice never adds, removes or renames a row and never
    touches the users: the invoice ids are the same afterwards.  A 404
    (unknown id) or 500 (delivery failed) answer leaves the tables
    unchanged; after a 200 answer every row with the requested id is marked
    as sent at the time of the call. *)
Theorem resend_keeps_rows (e : Env) (id : string) (st : Store) :
  let r := resendInvoice e id st in
  users (fst r) = users st /\
  map Invoice.invoiceId (invoices (fst r)) = map Invoice.invoiceId (invoices st) /\
  (code (snd r) <> 200 -> fst r = st) /\
  (code (snd r) = 200 ->
   forall i, In i (invoices (fst r)) -> Invoice.invoiceId i = id ->
             Invoice.emailSent i = true /\
             Invoice.emailSentAt i = Some (now e)).
Proof.
  cbv zeta. unfold resendInvoice.
  destruct (find _ (invoices st)) as [inv|] eqn:Hf; cbn [fst snd].
  2:{ cbn [code]. split; [reflexivity|]. split; [reflexivity|].
      split; [reflexivity | discriminate]. }
  apply find_some in Hf as [Hin Hid]. apply String.eqb_eq in Hid.
  unfold sendInvoice. destruct (emailResult e); cbn [code].
  - split; [reflexivity|]. split; [apply markSent_ids|].
    split; [intro H; now contradiction H|]. intros _ i Hi Hi'.
    unfold markSent in Hi. cbn [invoices] in Hi.
    apply in_map_iff in Hi as (x & Hx & _).
    destruct (String.eqb_spec (Invoice.invoiceId x) (Invoice.invoiceId inv))
      as [Heq|Hne].
    + subst i. split; reflexivity.
    + subst i. congruence.
  - split; [reflexivity|]. split; [reflexivity|].
    split; [reflexivity | discriminate].
Qed.

Lemma resend_keeps_rows_witness :
  let e := Sample.env Sample.t0 "K3" (Stripe.other_event "ping") None in
  let r := resendInvoice e "INV-1-A" Sample2.ledger in
  map Invoice.invoiceId (invoices (fst r)) = ["INV-1-A"; "INV-2-B"; "INV-3-C"] /\
  forall i, In i (invoices (fst r)) -> Invoice.invoiceId i = "INV-1-A" ->
            Invoice.emailSent i = true /\
            Invoice.emailSentAt i = Some 1700000000000.
Proof.
  intros e r.
  destruct (resend_keeps_rows e "INV-1-A" Sample2.ledger)
    as (_ & Hids & _ & Hsent).
  split; [exact Hids|]. apply Hsent. reflexivity.
Defined.

(** ** The customer helper *)

Import CustomerHelper.

Lemma findByPk_save_any (u u' : User.t) (st : Store) :
  In u (users st) -> User.id u' = User.id u ->
  findByPk (User.id u) (users (save u' st)) = Some u'.
Proof.
  unfold findByPk, save. cbn [users]. intros Hin Hi. rewrite Hi.
  induction (users st) as [|x l IH]; [destruct Hin|].
  cbn [map find]. destruct (User.id x =? User.id u) eqn:Hid.
  - now rewrite Hi, Z.eqb_refl.
  - rewrite Hid. destruct Hin as [->|Hin].
    + rewrite Z.eqb_refl in Hid. discriminate.
    + now apply IH.
Qed.

(** X28. When [getOrCreateCustomer] returns a customer id, that id is the
    one stored for the user afterwards, and the user's subscription record,
    name and e-mail are as before; when it throws, the tables are
    unchanged. *)
Theorem getOrCreateCustomer_returns_stored_id
    (sdk : Customers) (user : User.t) (st : Store) :
  findByPk (User.id user) (users st) = Some user ->
  let r := getOrCreateCustomer sdk user st in
  (snd r = None -> fst r = st) /\
  (forall customerId,
     snd r = Some customerId ->
     invoices (fst r) = invoices st /\
     exists u,
       findByPk (User.id user) (users (fst r)) = Some u /\
       User.stripeCustomerId u = Some customerId /\
       User.subscription u = User.subscription user /\
       User.email u = User.email user /\ User.name u = User.name user).
Proof.
  intros Hpk r. destruct (findByPk_In _ _ _ Hpk) as [Hin _].
  assert (Hcreate :
            let r := match customers_create sdk user with
                     | Some customerId =>
                         (save (setCustomer user customerId) st, Some customerId)
                     | None => (st, None)
                     end in
            (snd r = None -> fst r = st) /\
            (forall customerId,
               snd r = Some customerId ->
               invoices (fst r) = invoices st /\
               exists u,
                 findByPk (User.id user) (users (fst r)) = Some u /\
                 User.stripeCustomerId u = Some customerId /\
                 User.subscription u = User.subscription user /\
                 User.email u = User.email user /\
                 User.name u = User.name user)).
  { destruct (customers_create sdk user) as [cid|]; cbn [fst snd].
    - split; [discriminate|]. intros cid' H. inversion H; subst cid'.
      split; [reflexivity|]. exists (setCustomer user cid).
      split; [now apply findByPk_save_any|]. repeat split; reflexivity.
    - split; [reflexivity | discriminate]. }
  unfold r, getOrCreateCustomer.
  destruct (User.stripeCustomerId user) as [cid|] eqn:Hc; [|exact Hcreate].
  destruct (String.eqb cid EmptyString); [exact Hcreate|].
  destruct (customers_retrieve sdk cid); [| exact Hcreate |]; cbn [fst snd].
  - split; [discriminate|]. intros cid' H. inversion H; subst cid'.
    split; [reflexivity|]. exists user. repeat split; auto.
  - split; [reflexivity | discriminate].
Qed.

Lemma getOrCreateCustomer_returns_stored_id_witness :
  let sdk := Sample2.customers "cus_other" (Some "cus_new") in
  let r := getOrCreateCustomer sdk (Sample.alice (Some Sample.pending))
             (Sample.store (Some Sample.pending)) in
  snd r = Some "cus_new" /\
  exists u,
    findByPk 1 (users (fst r)) = Some u /\
    User.stripeCustomerId u = Some "cus_new" /\
    User.subscription u = Some Sample.pending.
Proof.
  intros sdk r. split; [reflexivity|].
  destruct (getOrCreateCustomer_returns_stored_id sdk
              (Sample.alice (Some Sample.pending))
              (Sample.store (Some Sample.pending)) eq_refl) as [_ H].
  destruct (H "cus_new" eq_refl) as (_ & u & Hf & Hc & Hs & _).
  exists u. repeat split; assumption.
Defined.

(** X29. [getOrCreateCustomer] does not create a second customer: once a
    call has returned a non-empty customer id that the provider recognizes,
    a further call for the user as read back from the table returns the
    same id and changes nothing. *)
Theorem getOrCreateCustomer_is_stable
    (sdk : Customers) (user u' : User.t) (st st' : Store)
    (customerId : string) :
  findByPk (User.id user) (users st) = Some user ->
  getOrCreateCustomer sdk user st = (st', Some customerId) ->
  customerId <> EmptyString ->
  customers_retrieve sdk customerId = Valid ->
  findByPk (User.id user) (users st') = Some u' ->
  getOrCreateCustomer sdk u' st' = (st', Some customerId).
Proof.
  intros Hpk Hcall Hne Hvalid Hread.
  destruct (getOrCreateCustomer_returns_stored_id sdk user st Hpk) as [_ H].
  rewrite Hcall in H. cbn [fst snd] in H.
  destruct (H customerId eq_refl) as (_ & u & Hu & Hc & _).
  rewrite Hread in Hu. inversion Hu; subst u.
  unfold getOrCreateCustomer. rewrite Hc.
  apply String.eqb_neq in Hne. now rewrite Hne, Hvalid.
Qed.

Lemma getOrCreateCustomer_is_stable_witness :
  let sdk := Sample2.customers "cus_new" (Some "cus_new") in
  let user := Sample.alice (Some Sample.pending) in
  let st := Sample.store (Some Sample.pending) in
  let st' := fst (getOrCreateCustomer sdk user st) in
  getOrCreateCustomer sdk (setCustomer user "cus_new") st'
  = (st', Some "cus_new").
Proof.
  intros sdk user st st'.
  apply (getOrCreateCustomer_is_stable sdk user (setCustomer user "cus_new")
           st st' "cus_new"); try reflexivity. discriminate.
Defined.
